(** * The SWE-bench stub runner, [harness/adapters/swebench/run.py]

    A shallow embedding of the script's [main] together with the parts of
    the Python runtime it calls ([time.strftime], [os.path.join],
    [os.path.dirname], [os.makedirs], [open], [json.dump], [json.dumps],
    [print]), and the properties of the record it writes. *)

From Stdlib Require Import Ascii String ZArith NArith Lia List.
From stdpp Require Import base decidable option list strings gmap fin_maps.


(** ** Characters and decimal numerals *)

Module Chars.

Definition is_digit (c : ascii) : bool :=
  (48 <=? N_of_ascii c)%N && (N_of_ascii c <=? 57)%N.

(** The character of a decimal digit, ["0"] being code 48. *)
Definition digit_char (d : Z) : ascii := ascii_of_N (Z.to_N (48 + d)).

Fixpoint forall_chars (P : ascii -> bool) (s : string) : bool :=
  match s with
  | EmptyString => true
  | String c r => P c && forall_chars P r
  end.

(** Decimal numeral of a non-negative integer, least significant digit
    first onto the accumulator; the fuel bounds the number of digits. *)
Fixpoint dec_fuel (fuel : nat) (n : Z) (acc : string) : string :=
  match fuel with
  | 0 => acc
  | S f =>
      if (n <? 10)%Z then String (digit_char n) acc
      else dec_fuel f (n / 10) (String (digit_char (n mod 10)) acc)
  end.

(** A number has no more decimal digits than binary ones. *)
Definition dec (n : Z) : string := dec_fuel (S (Z.to_nat (Z.log2 n))) n "".

(** [int.__repr__], also C's [%d]. *)
Definition repr_int (n : Z) : string :=
  if (n <? 0)%Z then String "-" (dec (- n)) else dec n.

(** C's [%02d]: zero-padded to at least two characters. *)
Definition pad2 (n : Z) : string :=
  if (0 <=? n)%Z && (n <? 10)%Z then String "0" (repr_int n) else repr_int n.

(** The characters a decimal numeral can hold: digits and the sign. *)
Definition is_int_char (c : ascii) : bool := is_digit c || Ascii.eqb c "-".

End Chars.

(** ** [time.struct_time] and [time.strftime] *)

Module Time.
Import Chars.

(** The fields of [time.localtime()] that the format string reads. *)
Record struct_time := mk_tm {
  tm_year : Z;
  tm_mon : Z;
  tm_mday : Z;
  tm_hour : Z;
  tm_min : Z;
  tm_sec : Z
}.

(** Field ranges of a broken-down local time, with a four-digit year. *)
Definition valid_tm (t : struct_time) : Prop :=
  (1000 <= tm_year t <= 9999 /\
   1 <= tm_mon t <= 12 /\
   1 <= tm_mday t <= 31 /\
   0 <= tm_hour t <= 23 /\
   0 <= tm_min t <= 59 /\
   0 <= tm_sec t <= 61)%Z.

(** One conversion specification of [strftime]. *)
Definition directive (c : ascii) (t : struct_time) : option string :=
  if Ascii.eqb c "Y" then Some (repr_int (tm_year t))
  else if Ascii.eqb c "m" then Some (pad2 (tm_mon t))
  else if Ascii.eqb c "d" then Some (pad2 (tm_mday t))
  else if Ascii.eqb c "H" then Some (pad2 (tm_hour t))
  else if Ascii.eqb c "M" then Some (pad2 (tm_min t))
  else if Ascii.eqb c "S" then Some (pad2 (tm_sec t))
  else if Ascii.eqb c "%" then Some "%"
  else None.

(** [time.strftime(fmt, t)]: conversion specifications are replaced,
    every other character is copied. *)
Fixpoint strftime (fmt : string) (t : struct_time) : string :=
  match fmt with
  | EmptyString => ""
  | String c r =>
      if Ascii.eqb c "%" then
        match r with
        | String d r' =>
            match directive d t with
            | Some s => s +:+ strftime r' t
            | None => String c (String d (strftime r' t))
            end
        | EmptyString => String c ""
        end
      else String c (strftime r t)
  end.

End Time.

(** ** A fragment of [re]: sequences of counted atoms, [\d{8}-\d{6}] *)

Module Re.
Import Chars.






End Re.

(** ** Python dictionaries: insertion-ordered, one entry per key *)

Module Dict.
Section Dict.
Context {V : Type}.

Fixpoint dict_get (d : list (string * V)) (k : string) : option V :=
  match d with
  | [] => None
  | (k', v) :: d' => if String.eqb k' k then Some v else dict_get d' k
  end.

(** [d[k] = v]: an existing key keeps its position, a new one is
    appended. *)
Fixpoint dict_set (d : list (string * V)) (k : string) (v : V)
  : list (string * V) :=
  match d with
  | [] => [(k, v)]
  | (k', v') :: d' =>
      if String.eqb k' k then (k', v) :: d' else (k', v') :: dict_set d' k v
  end.

(** A dict display [{k1: v1, ...}], also [dict(pairs)]: the entries are
    stored from left to right. *)
Definition dict_of_pairs (l : list (string * V)) : list (string * V) :=
  fold_left (fun d kv => dict_set d (fst kv) (snd kv)) l [].

Definition dict_keys (d : list (string * V)) : list string := map fst d.
End Dict.
End Dict.

(** ** The [json] module, on the fragment of JSON the script produces:
       objects, strings and integers *)

Module Json.
Import Chars Dict.

#[warnings="-register-all"]
Inductive value :=
| JInt (n : Z)
| JStr (s : string)
| JObj (items : list (string * value)).

Definition dquote : ascii := "034"%char.
Definition backslash : ascii := "092"%char.
Definition newline : ascii := "010"%char.

(** *** Encoding: [json.encoder] *)

(** One digit of ['{0:04x}'.format(n)]. *)
Definition hex_digit (n : N) : ascii :=
  if (n <? 10)%N then ascii_of_N (48 + n) else ascii_of_N (87 + n).

(** The replacement of one character in [py_encode_basestring_ascii]:
    [ESCAPE_DCT] first, then [\uXXXX] for what is left outside the range
    from space to tilde. *)
Definition escape_char (c : ascii) : string :=
  let n := N_of_ascii c in
  let esc (e : ascii) := String backslash (String e "") in
  if Ascii.eqb c backslash then esc backslash
  else if Ascii.eqb c dquote then esc dquote
  else if (n =? 8)%N then esc "b"%char
  else if (n =? 12)%N then esc "f"%char
  else if (n =? 10)%N then esc "n"%char
  else if (n =? 13)%N then esc "r"%char
  else if (n =? 9)%N then esc "t"%char
  else if (n <? 32)%N || (126 <? n)%N then
    String backslash (String "u" (String "0" (String "0"
      (String (hex_digit (n / 16)) (String (hex_digit (n mod 16)) "")))))
  else String c "".

Fixpoint escape (s : string) : string :=
  match s with
  | EmptyString => ""
  | String c r => escape_char c +:+ escape r
  end.

Definition encode_string (s : string) : string :=
  String dquote (escape s +:+ String dquote "").

Fixpoint spaces (n : nat) : string :=
  match n with
  | 0 => ""
  | S n' => String " " (spaces n')
  end.

(** [sep.join(chunks)] *)
Fixpoint join (sep : string) (chunks : list string) : string :=
  match chunks with
  | [] => ""
  | [c] => c
  | c :: cs => c +:+ sep +:+ join sep cs
  end.

(** [_iterencode] at nesting depth [level]. With [indent = Some k] the
    items of an object are put on lines of their own, indented by [k]
    spaces per level, and separated by [","]; with [indent = None] they
    are separated by [", "]. The key separator is [": "] in both. *)
Fixpoint encode (indent : option nat) (level : nat) (v : value) : string :=
  match v with
  | JInt n => repr_int n
  | JStr s => encode_string s
  | JObj [] => "{}"
  | JObj items =>
      let newline_indent :=
        match indent with
        | Some k => String newline (spaces (k * S level))
        | None => ""
        end in
      let item_separator :=
        match indent with
        | Some _ => "," +:+ newline_indent
        | None => ", "
        end in
      let closing :=
        match indent with
        | Some k => String newline (spaces (k * level))
        | None => ""
        end in
      "{" +:+ newline_indent
      +:+ join item_separator
            (map (fun kv => encode_string (fst kv) +:+ ": "
                            +:+ encode indent (S level) (snd kv)) items)
      +:+ closing +:+ "}"
  end.

(** [json.dumps(obj)] *)
Definition dumps (v : value) : string := encode None 0 v.

(** The text [json.dump(obj, fp, indent=k)] writes to [fp]. *)
Definition dump_text (v : value) (k : nat) : string := encode (Some k) 0 v.

(** *** Decoding: [json.decoder] and [json.scanner] *)

Definition is_ws (c : ascii) : bool :=
  let n := N_of_ascii c in
  (n =? 32)%N || (n =? 9)%N || (n =? 10)%N || (n =? 13)%N.

Fixpoint skip_ws (s : string) : string :=
  match s with
  | String c r => if is_ws c then skip_ws r else s
  | EmptyString => s
  end.

Definition hex_val (c : ascii) : option N :=
  let n := N_of_ascii c in
  if (48 <=? n)%N && (n <=? 57)%N then Some (n - 48)%N
  else if (97 <=? n)%N && (n <=? 102)%N then Some (n - 87)%N
  else if (65 <=? n)%N && (n <=? 70)%N then Some (n - 55)%N
  else None.

Definition hex4 (a b c d : ascii) : option N :=
  match hex_val a, hex_val b, hex_val c, hex_val d with
  | Some x, Some y, Some z, Some w => Some (((x * 16 + y) * 16 + z) * 16 + w)%N
  | _, _, _, _ => None
  end.

(** The [BACKSLASH] table. *)
Definition unescape (e : ascii) : option ascii :=
  if Ascii.eqb e dquote then Some dquote
  else if Ascii.eqb e backslash then Some backslash
  else if Ascii.eqb e "/" then Some "/"%char
  else if Ascii.eqb e "b" then Some "008"%char
  else if Ascii.eqb e "f" then Some "012"%char
  else if Ascii.eqb e "n" then Some "010"%char
  else if Ascii.eqb e "r" then Some "013"%char
  else if Ascii.eqb e "t" then Some "009"%char
  else None.

Definition cons_res (c : ascii) (r : option (string * string))
  : option (string * string) :=
  match r with
  | Some (s, rest) => Some (String c s, rest)
  | None => None
  end.

(** [py_scanstring] in strict mode, from just after the opening quote:
    the decoded string and the text after the closing quote. Characters
    are single bytes here, so a [\uXXXX] above [ÿ] is refused. *)
Fixpoint scanstring (s : string) : option (string * string) :=
  match s with
  | EmptyString => None
  | String c r =>
      if Ascii.eqb c dquote then Some ("", r)
      else if Ascii.eqb c backslash then
        match r with
        | EmptyString => None
        | String e r1 =>
            if Ascii.eqb e "u" then
              match r1 with
              | String h1 (String h2 (String h3 (String h4 r2))) =>
                  match hex4 h1 h2 h3 h4 with
                  | Some n =>
                      if (n <? 256)%N then cons_res (ascii_of_N n) (scanstring r2)
                      else None
                  | None => None
                  end
              | _ => None
              end
            else
              match unescape e with
              | Some c' => cons_res c' (scanstring r1)
              | None => None
              end
        end
      else if (N_of_ascii c <? 32)%N then None
      else cons_res c (scanstring r)
  end.

(** The digits at the head of [s], as a number continuing [acc]. *)
Fixpoint scan_digits (s : string) (acc : Z) : Z * string :=
  match s with
  | String c r =>
      if is_digit c then scan_digits r (acc * 10 + (Z.of_N (N_of_ascii c) - 48))
      else (acc, s)
  | EmptyString => (acc, s)
  end.

(** The fraction and exponent groups of [NUMBER_RE]; a number with
    either is a float, which is outside the fragment. *)
Definition starts_frac (s : string) : bool :=
  match s with
  | String c (String d _) => Ascii.eqb c "." && is_digit d
  | _ => false
  end.

Definition starts_exp (s : string) : bool :=
  match s with
  | String e (String d r) =>
      (Ascii.eqb e "e" || Ascii.eqb e "E")
      && (is_digit d
          || ((Ascii.eqb d "+" || Ascii.eqb d "-")
              && match r with String d' _ => is_digit d' | _ => false end))
  | _ => false
  end.

(** The integer group of [NUMBER_RE] after the optional sign: a single
    zero, or a run of digits that starts with a non-zero one. *)
Definition scan_nat (s : string) : option (Z * string) :=
  match s with
  | String c r =>
      if Ascii.eqb c "0" then Some (0%Z, r)
      else if is_digit c then Some (scan_digits s 0)
      else None
  | EmptyString => None
  end.

Definition scan_int (s : string) : option (value * string) :=
  let signed :=
    match s with
    | String c r =>
        if Ascii.eqb c "-"
        then match scan_nat r with
             | Some (n, r') => Some ((- n)%Z, r')
             | None => None
             end
        else scan_nat s
    | EmptyString => None
    end in
  match signed with
  | Some (n, r) => if starts_frac r || starts_exp r then None else Some (JInt n, r)
  | None => None
  end.

(** [scan_once] and [JSONObject]. [parse_members] starts at the opening
    quote of a key, [acc] holding the pairs read so far, last first. *)
Fixpoint parse_value (fuel : nat) (s : string) : option (value * string) :=
  match fuel with
  | 0 => None
  | S f =>
      match s with
      | EmptyString => None
      | String c r =>
          if Ascii.eqb c dquote then
            match scanstring r with
            | Some (x, r') => Some (JStr x, r')
            | None => None
            end
          else if Ascii.eqb c "{" then
            match skip_ws r with
            | String c1 r1 =>
                if Ascii.eqb c1 "}" then Some (JObj [], r1)
                else
                  match parse_members f (String c1 r1) [] with
                  | Some (pairs, r') => Some (JObj (dict_of_pairs pairs), r')
                  | None => None
                  end
            | EmptyString => None
            end
          else scan_int s
      end
  end
with parse_members (fuel : nat) (s : string) (acc : list (string * value))
  : option (list (string * value) * string) :=
  match fuel with
  | 0 => None
  | S f =>
      match s with
      | String q r =>
          if Ascii.eqb q dquote then
            match scanstring r with
            | Some (k, r1) =>
                match skip_ws r1 with
                | String colon r2 =>
                    if Ascii.eqb colon ":" then
                      match parse_value f (skip_ws r2) with
                      | Some (v, r3) =>
                          match skip_ws r3 with
                          | String d r4 =>
                              if Ascii.eqb d "}" then Some (rev ((k, v) :: acc), r4)
                              else if Ascii.eqb d ","
                              then parse_members f (skip_ws r4) ((k, v) :: acc)
                              else None
                          | EmptyString => None
                          end
                      | None => None
                      end
                    else None
                | EmptyString => None
                end
            | None => None
            end
          else None
      | EmptyString => None
      end
  end.

(** [json.loads(s)]: one value, surrounded by optional whitespace. *)
Definition loads (s : string) : option value :=
  match parse_value (String.length s) (skip_ws s) with
  | Some (v, r) =>
      match skip_ws r with
      | EmptyString => Some v
      | _ => None
      end
  | None => None
  end.

End Json.

(** ** [posixpath]: paths are strings, with separator ["/"] *)

Module Posixpath.

Definition sep : ascii := "/"%char.

Definition startswith_sep (s : string) : bool :=
  match s with
  | String c _ => Ascii.eqb c sep
  | EmptyString => false
  end.

Fixpoint endswith_sep (s : string) : bool :=
  match s with
  | EmptyString => false
  | String c EmptyString => Ascii.eqb c sep
  | String _ r => endswith_sep r
  end.

Definition is_empty (s : string) : bool :=
  match s with
  | EmptyString => true
  | _ => false
  end.

(** One round of the loop of [join]: an absolute component replaces the
    path, any other is appended, after a separator unless the path is
    empty or already ends with one. *)
Definition join_step (path b : string) : string :=
  if startswith_sep b then b
  else if is_empty path || endswith_sep path then path +:+ b
  else path +:+ String sep b.

(** [os.path.join(a, *p)] *)
Definition join (a : string) (p : list string) : string :=
  fold_left join_step p a.

(** [(p[:i], p[i:])] for [i = p.rfind("/") + 1]. *)
Fixpoint cut_last_sep (p : string) : string * string :=
  match p with
  | EmptyString => ("", "")
  | String c r =>
      let (h, t) := cut_last_sep r in
      if negb (is_empty h) then (String c h, t)
      else if Ascii.eqb c sep then (String c "", t)
      else ("", String c t)
  end.

(** [head == sep * len(head)] *)
Fixpoint all_sep (s : string) : bool :=
  match s with
  | EmptyString => true
  | String c r => Ascii.eqb c sep && all_sep r
  end.

(** [head.rstrip(sep)] *)
Fixpoint rstrip_sep (s : string) : string :=
  match s with
  | EmptyString => ""
  | String c r =>
      let r' := rstrip_sep r in
      if is_empty r' && Ascii.eqb c sep then "" else String c r'
  end.

(** [os.path.split(p)] *)
Definition split (p : string) : string * string :=
  let (head, tail) := cut_last_sep p in
  (if negb (is_empty head) && negb (all_sep head) then rstrip_sep head else head,
   tail).

(** [os.path.dirname(p)] *)
Definition dirname (p : string) : string := fst (split p).

Definition not_sep (c : ascii) : bool := negb (Ascii.eqb c sep).

(** A non-empty path whose last character is not a separator. *)
Definition ends_plain (p : string) : Prop :=
  exists h c, p = h +:+ String c "" /\ Ascii.eqb c sep = false.

End Posixpath.

(** ** The operating system: a file system, standard output, errors *)

Module Os.
Import Posixpath.

Inductive node :=
| Dir
| File (data : string).

Inductive errno := EEXIST | ENOENT | ENOTDIR | EISDIR | EACCES | EROFS | ENOSPC | EBADF.

(** [OSError] with its error number and file name ([FileExistsError] is
    the one with [EEXIST]); [RecursionError] stands for the interpreter's
    recursion limit. *)
Inductive exn :=
| OSError (code : errno) (filename : string)
| RecursionError.

(** The state a run can change. The file system maps a path, as the
    program writes it, to what it names; two spellings of the same file
    are not identified, and there are no links. *)
Record world := mk_world {
  fs : gmap string node;
  stdout : list string
}.

(** The requests the program makes of the file system, and the
    environment of one run: the module's [__file__], the reading of the
    clock, and the requests the system refuses for reasons outside the
    model (permissions, quotas, a read-only or full device). *)
Inductive syscall :=
| SysMkdir (path : string)
| SysOpen (path : string)
| SysWrite (path : string).

Record env := mk_env {
  script_file : string;
  localtime : Time.struct_time;
  fault : syscall -> option errno
}.

(** Statements either complete with a value or raise; both leave a
    world behind. *)
Inductive outcome (A : Type) :=
| Ret (a : A) (w : world)
| Raise (e : exn) (w : world).
Arguments Ret {A} a w.
Arguments Raise {A} e w.

Definition M (A : Type) : Type := world -> outcome A.

(** The world a statement leaves behind, however it ends. *)
Definition final {A} (o : outcome A) : world :=
  match o with
  | Ret _ w => w
  | Raise _ w => w
  end.

Definition ret {A} (a : A) : M A := fun w => Ret a w.
Definition raise {A} (e : exn) : M A := fun w => Raise e w.
Definition bind {A B} (m : M A) (k : A -> M B) : M B :=
  fun w =>
    match m w with
    | Ret a w' => k a w'
    | Raise e w' => Raise e w'
    end.
(** [try: m except Exception as e: h e] *)
Definition try_except {A} (m : M A) (h : exn -> M A) : M A :=
  fun w =>
    match m w with
    | Ret a w' => Ret a w'
    | Raise e w' => h e w'
    end.

Declare Scope py_scope.
Delimit Scope py_scope with py.
Notation "x <- m ;; k" := (bind m (fun x => k))
  (at level 100, m at next level, k at level 200, right associativity) : py_scope.
Notation "m ;; k" := (bind m (fun _ => k))
  (at level 100, k at level 200, right associativity) : py_scope.
Local Open Scope py_scope.

Definition is_dir (t : gmap string node) (p : string) : bool :=
  match t !! p with
  | Some Dir => true
  | _ => false
  end.

Definition is_file (t : gmap string node) (p : string) : bool :=
  match t !! p with
  | Some (File _) => true
  | _ => false
  end.

Definition is_file_exists (e : exn) : bool :=
  match e with
  | OSError EEXIST _ => true
  | _ => false
  end.

(** The directory that would hold the entry [p]: the current directory
    for a bare name, the root, or a directory of the file system. *)
Definition parent_ok (t : gmap string node) (p : string) : bool :=
  let h := dirname p in
  is_empty h || all_sep h || is_dir t h.

(** [os.path.exists], [os.path.isdir] *)
Definition path_exists (p : string) : M bool :=
  fun w => Ret (bool_decide (is_Some (fs w !! p))) w.

Definition path_isdir (p : string) : M bool :=
  fun w => Ret (is_dir (fs w) p) w.

(** How one world can follow another: [touches q] allows any change at
    the path [q] and, everywhere else, nothing but new directories;
    [silent] leaves standard output as it was. *)
Definition touches (q : string) (w w' : world) : Prop :=
  forall p, p <> q ->
    fs w' !! p = fs w !! p \/ (fs w !! p = None /\ fs w' !! p = Some Dir).

Definition silent (w w' : world) : Prop := stdout w' = stdout w.

(** Nothing changes outside the paths [qs]. *)
Definition changes_within (qs : list string) (w w' : world) : Prop :=
  forall p, p ∉ qs -> fs w' !! p = fs w !! p.

(** A statement that keeps a relation between the worlds before and
    after it, however it ends; and one that raises only exceptions of a
    given kind. *)
Definition keeps {A} (R : world -> world -> Prop) (m : M A) : Prop :=
  forall w, R w (final (m w)).



Section Run.
Variable e : env.

(** [os.mkdir(p)] *)
Definition mkdir (p : string) : M unit :=
  fun w =>
    match fault e (SysMkdir p) with
    | Some c => Raise (OSError c p) w
    | None =>
        match fs w !! p with
        | Some _ => Raise (OSError EEXIST p) w
        | None =>
            if parent_ok (fs w) p
            then Ret tt (mk_world (<[p := Dir]> (fs w)) (stdout w))
            else Raise (OSError ENOENT p) w
        end
    end.

(** The last statement of [os.makedirs]: the leaf is created, and an
    [OSError] is let through unless [exist_ok] is set and the leaf is a
    directory. *)
Definition mkdir_leaf (name : string) (exist_ok : bool) : M unit :=
  try_except (mkdir name)
    (fun x =>
       d <- path_isdir name ;;
       if negb exist_ok || negb d then raise x else ret tt).

(** [os.makedirs(name, exist_ok=exist_ok)]; each nested call is on a
    shorter name, so [S (length name)] calls are enough. *)
Fixpoint makedirs_fuel (fuel : nat) (name : string) (exist_ok : bool) : M unit :=
  match fuel with
  | 0 => raise RecursionError
  | S f =>
      let (head0, tail0) := split name in
      let (head, tail) := if is_empty tail0 then split head0 else (head0, tail0) in
      missing <- (if negb (is_empty head) && negb (is_empty tail)
                  then (b <- path_exists head ;; ret (negb b))
                  else ret false) ;;
      stop <- (if (missing : bool)
               then try_except (makedirs_fuel f head exist_ok)
                      (fun x => if is_file_exists x then ret tt else raise x) ;;
                    ret (String.eqb tail ".")
               else ret false) ;;
      if (stop : bool) then ret tt else mkdir_leaf name exist_ok
  end.

Definition makedirs (name : string) (exist_ok : bool) : M unit :=
  makedirs_fuel (S (String.length name)) name exist_ok.

(** [open(p, "w")]: the file is created, or emptied when it exists; the
    handle is the path. *)
Definition open_w (p : string) : M string :=
  fun w =>
    match fault e (SysOpen p) with
    | Some c => Raise (OSError c p) w
    | None =>
        match fs w !! p with
        | Some Dir => Raise (OSError EISDIR p) w
        | Some (File _) => Ret p (mk_world (<[p := File ""]> (fs w)) (stdout w))
        | None =>
            if parent_ok (fs w) p
            then Ret p (mk_world (<[p := File ""]> (fs w)) (stdout w))
            else Raise (OSError ENOENT p) w
        end
    end.

(** [f.write(text)], through to the file. *)
Definition write (f : string) (text : string) : M unit :=
  fun w =>
    match fault e (SysWrite f) with
    | Some c => Raise (OSError c f) w
    | None =>
        match fs w !! f with
        | Some (File d) => Ret tt (mk_world (<[f := File (d +:+ text)]> (fs w)) (stdout w))
        | _ => Raise (OSError EBADF f) w
        end
    end.

(** [with open(p, "w") as f: body f]; closing the file changes nothing
    more. *)
Definition with_open_w {A} (p : string) (body : string -> M A) : M A :=
  f <- open_w p ;; body f.

(** [json.dump(obj, fp, indent=k)] *)
Definition json_dump (obj : Json.value) (fp : string) (k : nat) : M unit :=
  write fp (Json.dump_text obj k).

(** [print(s)] *)
Definition print (s : string) : M unit :=
  fun w => Ret tt (mk_world (fs w) (stdout w ++ [s +:+ String Json.newline ""])).

End Run.
End Os.

(** ** The script *)

Module Run.
Import Dict Json Posixpath Os.
Local Open Scope py_scope.

(** [main()] *)
Definition main (e : env) : M unit :=
  let ts := Time.strftime "%Y%m%d-%H%M%S" (localtime e) in
  let result := dict_of_pairs
    [("timestamp", JStr ts);
     ("instances", JInt 0);
     ("resolved", JInt 0);
     ("score", JInt 0)] in
  let out_dir := join (dirname (script_file e)) [".."; ".."; "results"] in
  makedirs e out_dir true ;;
  with_open_w e (join out_dir ["swebench-" +:+ ts +:+ ".json"])
    (fun f => json_dump e (JObj result) f 2) ;;
  print (dumps (JObj result)).

(** The values of the local variables [ts], [result] and [out_dir] of
    [main], and the path it opens, as functions of the environment. *)
Definition timestamp (e : env) : string :=
  Time.strftime "%Y%m%d-%H%M%S" (localtime e).

Definition result (ts : string) : list (string * value) :=
  dict_of_pairs
    [("timestamp", JStr ts);
     ("instances", JInt 0);
     ("resolved", JInt 0);
     ("score", JInt 0)].

Definition out_dir (e : env) : string :=
  join (dirname (script_file e)) [".."; ".."; "results"].

(** The directory in which [results] is looked up and created. *)
Definition results_parent (e : env) : string :=
  join (dirname (script_file e)) [".."; ".."].

(** The name of the file within [out_dir]. *)
Definition file_name (ts : string) : string := "swebench-" +:+ ts +:+ ".json".

Definition out_path (e : env) : string :=
  join (out_dir e) [file_name (timestamp e)].

(** What a completed run has written to the file and printed. *)
Definition file_text (ts : string) : string := dump_text (JObj (result ts)) 2.
Definition stdout_line (ts : string) : string :=
  dumps (JObj (result ts)) +:+ String newline "".

(** The run started in [w] leaves a regular file at a path where [w] had
    no entry. *)
Definition creates_new_file (e : env) (w : world) : Prop :=
  exists p, fs w !! p = None /\ is_file (fs (final (main e w))) p = true.

(** Running the file as a script: [main()] is called, and the exit status
    is 0 when it returns and 1 when an exception comes out of it. *)
Definition run_script (e : env) (w : world) : Z * world :=
  match main e w with
  | Ret _ w' => (0%Z, w')
  | Raise _ w' => (1%Z, w')
  end.

End Run.

(** ** Sample runs *)

Module Sample.
Import Os Run.

Definition run_py : string := "/repo/harness/adapters/swebench/run.py".

Definition no_fault : syscall -> option errno := fun _ => None.

(** A system that refuses to create directories. *)
Definition no_mkdir : syscall -> option errno :=
  fun c => match c with SysMkdir _ => Some EACCES | _ => None end.

Definition at_noon : env :=
  mk_env run_py (Time.mk_tm 2026 11 3 12 0 0) no_fault.

Definition a_second_later : env :=
  mk_env run_py (Time.mk_tm 2026 11 3 12 0 1) no_fault.

Definition at_noon_denied : env :=
  mk_env run_py (Time.mk_tm 2026 11 3 12 0 0) no_mkdir.

(** A checkout in which [results] does not exist yet. *)
Definition checkout : world :=
  mk_world {[ "/repo/harness/adapters/swebench/../.." := Dir ]} [].

(** [s] between double quotes, for writing JSON text down. *)
Definition quoted (s : string) : string :=
  String Json.dquote (s +:+ String Json.dquote "").

Definition eol : string := String Json.newline "".

Definition after_first : world := final (main at_noon checkout).
Definition after_second : world := final (main a_second_later after_first).
Definition after_repeat : world := final (main at_noon after_first).

End Sample.

(** ** Orders, character classes and further sample worlds *)

Module Extra.
Import Chars Time Os Run Sample.

(** Characters from space to tilde. *)
Definition is_printable (c : ascii) : bool :=
  (32 <=? N_of_ascii c)%N && (N_of_ascii c <=? 126)%N.

Definition printable_or_newline (c : ascii) : bool :=
  is_printable c || Ascii.eqb c Json.newline.

(** Lexicographic combination of two comparisons. *)
Definition lex (c1 c2 : comparison) : comparison :=
  match c1 with
  | Eq => c2
  | _ => c1
  end.

(** The order of two local times, field by field from the year down. *)
Definition tm_compare (t1 t2 : struct_time) : comparison :=
  lex (tm_year t1 ?= tm_year t2)%Z
    (lex (tm_mon t1 ?= tm_mon t2)%Z
       (lex (tm_mday t1 ?= tm_mday t2)%Z
          (lex (tm_hour t1 ?= tm_hour t2)%Z
             (lex (tm_min t1 ?= tm_min t2)%Z
                (tm_sec t1 ?= tm_sec t2)%Z)))).

(** Systems that refuse to open, and to write, files. *)
Definition no_open : syscall -> option errno :=
  fun c => match c with SysOpen _ => Some EACCES | _ => None end.


Definition at_noon_locked : env :=
  mk_env run_py (Time.mk_tm 2026 11 3 12 0 0) no_open.


(** A script started by its bare name. *)
Definition bare_name : env :=
  mk_env "run.py" (Time.mk_tm 2026 11 3 12 0 0) no_fault.

(** A checkout in which a regular file is in the place of [results]. *)
Definition results_taken : world :=
  mk_world (<[ "/repo/harness/adapters/swebench/../../results" := File "" ]>
              (fs checkout)) [].

(** The world after the first run, with a directory put in the place of
    the file a second later. *)
Definition path_taken : world :=
  mk_world (<[ out_path a_second_later := Dir ]> (fs after_first))
    (stdout after_first).

End Extra.

(** * Properties *)

(** ** Strings *)

Module StringFacts.

Lemma app_cons (c : ascii) (s t : string) : String c s +:+ t = String c (s +:+ t).
Proof. reflexivity. Qed.

Lemma app_nil_l (t : string) : "" +:+ t = t.
Proof. reflexivity. Qed.

Lemma app_nil_r (s : string) : s +:+ "" = s.
Proof. induction s as [| c s IH]; [reflexivity |]. rewrite app_cons, IH. reflexivity. Qed.

Lemma app_assoc (s t u : string) : (s +:+ t) +:+ u = s +:+ (t +:+ u).
Proof.
  induction s as [| c s IH]; [reflexivity |].
  rewrite !app_cons, IH. reflexivity.
Qed.

Lemma app_inv_head (s t u : string) : s +:+ t = s +:+ u -> t = u.
Proof.
  induction s as [| c s IH]; [trivial |].
  rewrite !app_cons. intros H. injection H as H. exact (IH H).
Qed.

Lemma length_app (s t : string) :
  String.length (s +:+ t) = String.length s + String.length t.
Proof.
  induction s as [| c s IH]; [reflexivity |].
  rewrite app_cons. simpl. rewrite IH. reflexivity.
Qed.

Lemma app_inv_tail (s t u : string) : s +:+ u = t +:+ u -> s = t.
Proof.
  revert t. induction s as [| c s IH]; intros [| d t] H.
  - reflexivity.
  - apply (f_equal String.length) in H. rewrite app_nil_l, app_cons in H.
    simpl in H. rewrite length_app in H. lia.
  - apply (f_equal String.length) in H. rewrite app_nil_l, app_cons in H.
    simpl in H. rewrite length_app in H. lia.
  - rewrite !app_cons in H. injection H as -> H. rewrite (IH _ H). reflexivity.
Qed.

End StringFacts.

Create Rewrite HintDb str.
#[global] Hint Rewrite StringFacts.app_cons StringFacts.app_nil_l : str.

(** ** Decimal numerals *)

Module CharsFacts.
Import Chars StringFacts.

Lemma digit_char_is_digit (d : Z) :
  (0 <= d < 10)%Z -> is_digit (digit_char d) = true.
Proof.
  intros H.
  assert (d = 0 \/ d = 1 \/ d = 2 \/ d = 3 \/ d = 4 \/ d = 5 \/ d = 6
          \/ d = 7 \/ d = 8 \/ d = 9)%Z as Hd by lia.
  repeat (destruct Hd as [-> | Hd]; [reflexivity |]).
  subst d. reflexivity.
Qed.

Lemma forall_chars_app (P : ascii -> bool) (s t : string) :
  forall_chars P (s +:+ t) = forall_chars P s && forall_chars P t.
Proof.
  induction s as [| c s IH]; [reflexivity |].
  rewrite app_cons. simpl. rewrite IH. apply andb_assoc.
Qed.

Lemma forall_chars_impl (P Q : ascii -> bool) (s : string) :
  (forall c, P c = true -> Q c = true) ->
  forall_chars P s = true -> forall_chars Q s = true.
Proof.
  intros HPQ. induction s as [| c s IH]; simpl; [reflexivity |].
  intros [Hc Hs]%andb_true_iff. rewrite (HPQ _ Hc), (IH Hs). reflexivity.
Qed.

(** Every character [dec_fuel] produces is a digit, whatever the fuel. *)
Lemma dec_fuel_digits (f : nat) : forall (n : Z) (acc : string),
  (0 <= n)%Z -> forall_chars is_digit acc = true ->
  forall_chars is_digit (dec_fuel f n acc) = true.
Proof.
  induction f as [| f IH]; intros n acc Hn Hacc; simpl; [exact Hacc |].
  destruct (n <? 10)%Z eqn:Hlt.
  - simpl. rewrite digit_char_is_digit, Hacc; [reflexivity |].
    apply Z.ltb_lt in Hlt. lia.
  - apply IH.
    + apply Z.div_pos; lia.
    + simpl. rewrite digit_char_is_digit, Hacc; [reflexivity |].
      apply Z.mod_pos_bound. lia.
Qed.

Lemma dec_digits (n : Z) : (0 <= n)%Z -> forall_chars is_digit (dec n) = true.
Proof. intros Hn. apply dec_fuel_digits; [exact Hn | reflexivity]. Qed.

(** The characters of [repr_int]: digits, after a sign for a negative
    number. *)
Lemma repr_int_chars (n : Z) : forall_chars is_int_char (repr_int n) = true.
Proof.
  unfold repr_int. destruct (n <? 0)%Z eqn:Hn.
  - simpl. apply (forall_chars_impl is_digit).
    + intros c Hc. unfold is_int_char. rewrite Hc. reflexivity.
    + apply dec_digits. apply Z.ltb_lt in Hn. lia.
  - apply (forall_chars_impl is_digit).
    + intros c Hc. unfold is_int_char. rewrite Hc. reflexivity.
    + apply dec_digits. apply Z.ltb_ge in Hn. lia.
Qed.

Lemma pad2_chars (n : Z) : forall_chars is_int_char (pad2 n) = true.
Proof.
  unfold pad2. destruct (_ && _); [| apply repr_int_chars].
  simpl. apply repr_int_chars.
Qed.

(** Numerals of one, two and four digits. *)
Lemma dec_1 (n : Z) : (0 <= n < 10)%Z -> dec n = String (digit_char n) "".
Proof.
  intros Hn. unfold dec. simpl.
  destruct (n <? 10)%Z eqn:Hlt; [reflexivity |].
  apply Z.ltb_ge in Hlt. lia.
Qed.

Lemma log2_lower (k n : Z) : (0 <= k)%Z -> (2 ^ k <= n)%Z -> (k <= Z.log2 n)%Z.
Proof.
  intros Hk Hn. rewrite <- (Z.log2_pow2 k Hk). apply Z.log2_le_mono, Hn.
Qed.

Lemma dec_2 (n : Z) :
  (10 <= n < 100)%Z ->
  dec n = String (digit_char (n / 10)) (String (digit_char (n mod 10)) "").
Proof.
  intros Hn. unfold dec.
  pose proof (log2_lower 3 n ltac:(lia) ltac:(simpl; lia)) as Hl.
  destruct (Z.to_nat (Z.log2 n)) as [| f] eqn:Hf; [lia |].
  simpl.
  destruct (n <? 10)%Z eqn:H1; [apply Z.ltb_lt in H1; lia |].
  destruct (n / 10 <? 10)%Z eqn:H2; [reflexivity |].
  apply Z.ltb_ge in H2. Z.div_mod_to_equations. lia.
Qed.

Lemma dec_4 (n : Z) :
  (1000 <= n < 10000)%Z ->
  dec n = String (digit_char (n / 10 / 10 / 10))
            (String (digit_char (n / 10 / 10 mod 10))
               (String (digit_char (n / 10 mod 10))
                  (String (digit_char (n mod 10)) ""))).
Proof.
  intros Hn. unfold dec.
  pose proof (log2_lower 9 n ltac:(lia) ltac:(simpl; lia)) as Hl.
  destruct (Z.to_nat (Z.log2 n)) as [| [| [| f]]] eqn:Hf; [lia .. |].
  simpl.
  destruct (n <? 10)%Z eqn:H1; [apply Z.ltb_lt in H1; lia |].
  destruct (n / 10 <? 10)%Z eqn:H2;
    [apply Z.ltb_lt in H2; Z.div_mod_to_equations; lia |].
  destruct (n / 10 / 10 <? 10)%Z eqn:H3;
    [apply Z.ltb_lt in H3; Z.div_mod_to_equations; lia |].
  destruct (n / 10 / 10 / 10 <? 10)%Z eqn:H4; [reflexivity |].
  apply Z.ltb_ge in H4. Z.div_mod_to_equations. lia.
Qed.


End CharsFacts.

(** ** The timestamp *)

Module TimeFacts.
Import Chars StringFacts CharsFacts Time Re.

Lemma strftime_ts (t : struct_time) :
  strftime "%Y%m%d-%H%M%S" t
  = repr_int (tm_year t) +:+ pad2 (tm_mon t) +:+ pad2 (tm_mday t)
    +:+ String "-" (pad2 (tm_hour t) +:+ pad2 (tm_min t) +:+ pad2 (tm_sec t) +:+ "").
Proof. reflexivity. Qed.


(** Whatever the clock says, the timestamp holds only digits and
    hyphens; in particular no path separator. *)
Lemma strftime_ts_chars (t : struct_time) :
  forall_chars is_int_char (strftime "%Y%m%d-%H%M%S" t) = true.
Proof.
  rewrite strftime_ts.
  rewrite !forall_chars_app. simpl. rewrite !forall_chars_app.
  rewrite repr_int_chars, !pad2_chars. reflexivity.
Qed.

End TimeFacts.

(** ** JSON: what is written parses back *)

Module JsonFacts.
Import Chars Dict Json StringFacts.

(** Decoding undoes the escaping of one character. *)
Lemma scanstring_escape_char (c : ascii) (r : string) :
  scanstring (escape_char c +:+ r) = cons_res c (scanstring r).
Proof.
  destruct c as [[] [] [] [] [] [] [] []]; reflexivity.
Qed.

(** [py_scanstring] reads an encoded string back, up to its closing
    quote. *)
Lemma scanstring_escape (s r : string) :
  scanstring (escape s +:+ String dquote r) = Some (s, r).
Proof.
  induction s as [| c s IH].
  - reflexivity.
  - simpl escape. rewrite app_assoc, scanstring_escape_char, IH. reflexivity.
Qed.

Lemma result_items (ts : string) :
  Run.result ts
  = [("timestamp", JStr ts); ("instances", JInt 0);
     ("resolved", JInt 0); ("score", JInt 0)].
Proof. reflexivity. Qed.

(** The encoder's output for the record of [main], put in the form of
    one string with the escaped timestamp in the middle. *)
Ltac normalize_record_text :=
  rewrite result_items;
  unfold Run.file_text, Run.stdout_line, loads, dumps, dump_text;
  rewrite ?result_items;
  cbn [encode map join fst snd spaces Nat.mul Nat.add];
  unfold encode_string;
  change (repr_int 0) with "0";
  change (escape "timestamp") with "timestamp";
  change (escape "instances") with "instances";
  change (escape "resolved") with "resolved";
  change (escape "score") with "score";
  repeat (rewrite ?app_assoc; autorewrite with str);
  cbn [String.length].

Ltac run_parser :=
  simpl; rewrite scanstring_escape; simpl; reflexivity.

(** [json.loads(json.dumps(result)) == result] *)
Lemma loads_dumps_result (ts : string) :
  loads (dumps (JObj (Run.result ts))) = Some (JObj (Run.result ts)).
Proof. normalize_record_text. run_parser. Qed.

(** The line [print] emits ends with a newline, which [json.loads]
    skips. *)
Lemma loads_stdout_line (ts : string) :
  loads (Run.stdout_line ts) = Some (JObj (Run.result ts)).
Proof. normalize_record_text. run_parser. Qed.

(** The indented text in the file parses to the same record. *)
Lemma loads_file_text (ts : string) :
  loads (Run.file_text ts) = Some (JObj (Run.result ts)).
Proof. normalize_record_text. run_parser. Qed.

End JsonFacts.

(** ** Paths *)

Module PathFacts.
Import Chars StringFacts CharsFacts Posixpath.

Lemma is_empty_app_cons (h : string) (c : ascii) (r : string) :
  is_empty (h +:+ String c r) = false.
Proof. destruct h; reflexivity. Qed.

Lemma endswith_sep_snoc (h : string) (c : ascii) :
  endswith_sep (h +:+ String c "") = Ascii.eqb c sep.
Proof.
  induction h as [| a h IH]; [reflexivity |].
  rewrite app_cons. simpl. rewrite IH.
  destruct h; reflexivity.
Qed.

Lemma all_sep_app_plain (h : string) (c : ascii) (r : string) :
  Ascii.eqb c sep = false -> all_sep (h +:+ String c r) = false.
Proof.
  intros Hc. induction h as [| a h IH].
  - rewrite app_nil_l. simpl. rewrite Hc. reflexivity.
  - rewrite app_cons. simpl. rewrite IH. apply andb_false_r.
Qed.

Lemma rstrip_sep_snoc (h : string) (c : ascii) :
  Ascii.eqb c sep = false ->
  rstrip_sep (h +:+ String c (String sep "")) = h +:+ String c "".
Proof.
  intros Hc. induction h as [| a h IH].
  - rewrite !app_nil_l. simpl. rewrite Hc. reflexivity.
  - rewrite !app_cons. simpl. rewrite IH, is_empty_app_cons. reflexivity.
Qed.

Lemma cut_last_sep_plain (t : string) :
  forall_chars not_sep t = true -> cut_last_sep t = ("", t).
Proof.
  induction t as [| c t IH]; [reflexivity |].
  simpl. intros [Hc Ht]%andb_true_iff. rewrite (IH Ht). simpl.
  unfold not_sep in Hc. apply negb_true_iff in Hc. rewrite Hc. reflexivity.
Qed.

Lemma cut_last_sep_app (h t : string) :
  forall_chars not_sep t = true ->
  cut_last_sep (h +:+ String sep t) = (h +:+ String sep "", t).
Proof.
  intros Ht. induction h as [| a h IH].
  - rewrite !app_nil_l. simpl. rewrite (cut_last_sep_plain t Ht). reflexivity.
  - rewrite !app_cons. simpl. rewrite IH, is_empty_app_cons. reflexivity.
Qed.

(** [os.path.split] undoes the joining of a last component. *)
Lemma split_app (p t : string) :
  ends_plain p -> forall_chars not_sep t = true ->
  split (p +:+ String sep t) = (p, t).
Proof.
  intros (h & c & -> & Hc) Ht. unfold split.
  rewrite cut_last_sep_app by exact Ht.
  rewrite app_assoc, app_cons, app_nil_l.
  rewrite is_empty_app_cons, all_sep_app_plain by exact Hc.
  simpl negb. simpl andb. rewrite rstrip_sep_snoc by exact Hc. reflexivity.
Qed.

Lemma join_step_plain (p b : string) :
  ends_plain p -> startswith_sep b = false ->
  join_step p b = p +:+ String sep b.
Proof.
  intros (h & c & -> & Hc) Hb. unfold join_step.
  rewrite Hb, is_empty_app_cons, endswith_sep_snoc, Hc. reflexivity.
Qed.

(** Joining a relative component leaves the component at the end. *)
Lemma join_step_rel (p b : string) :
  startswith_sep b = false -> exists q, join_step p b = q +:+ b.
Proof.
  intros Hb. unfold join_step. rewrite Hb.
  destruct (is_empty p || endswith_sep p).
  - exists p. reflexivity.
  - exists (p +:+ String sep ""). rewrite app_assoc. reflexivity.
Qed.

Lemma ends_plain_app (q h : string) (c : ascii) :
  Ascii.eqb c sep = false -> ends_plain (q +:+ h +:+ String c "").
Proof.
  intros Hc. exists (q +:+ h), c. rewrite app_assoc. auto.
Qed.





Lemma int_char_not_sep (c : ascii) : is_int_char c = true -> not_sep c = true.
Proof.
  unfold not_sep. destruct (Ascii.eqb_spec c sep) as [-> | _]; [| reflexivity].
  discriminate.
Qed.

End PathFacts.

(** ** The local variables of [main] *)

Module RunFacts.
Import Chars StringFacts CharsFacts TimeFacts Posixpath PathFacts Dict Json Os Run.
Local Open Scope py_scope.

(** [main] in terms of its local variables. *)
Lemma main_unfold (e : env) :
  main e
  = (makedirs e (out_dir e) true ;;
     with_open_w e (out_path e)
       (fun f => json_dump e (JObj (result (timestamp e))) f 2) ;;
     print (dumps (JObj (result (timestamp e))))).
Proof. reflexivity. Qed.

Lemma results_parent_plain (e : env) : ends_plain (results_parent e).
Proof.
  unfold results_parent, Posixpath.join. cbn [fold_left].
  destruct (join_step_rel (join_step (dirname (script_file e)) "..") "..")
    as [q ->]; [reflexivity |].
  apply (ends_plain_app q "." "."). reflexivity.
Qed.

Lemma out_dir_eq (e : env) :
  out_dir e = results_parent e +:+ String sep "results".
Proof.
  unfold out_dir, Posixpath.join. cbn [fold_left].
  apply (join_step_plain (results_parent e)); [apply results_parent_plain | reflexivity].
Qed.

Lemma out_dir_plain (e : env) : ends_plain (out_dir e).
Proof.
  rewrite out_dir_eq.
  apply (ends_plain_app (results_parent e) (String sep "result") "s"). reflexivity.
Qed.

(** The parent of the results directory, as [os.makedirs] computes it. *)
Lemma split_out_dir (e : env) :
  split (out_dir e) = (results_parent e, "results").
Proof.
  rewrite out_dir_eq. apply split_app; [apply results_parent_plain | reflexivity].
Qed.

Lemma file_name_plain (ts : string) :
  forall_chars is_int_char ts = true -> forall_chars not_sep (file_name ts) = true.
Proof.
  intros Hts. unfold file_name. rewrite !forall_chars_app.
  rewrite (forall_chars_impl _ _ ts int_char_not_sep Hts). reflexivity.
Qed.

Lemma timestamp_chars (e : env) : forall_chars is_int_char (timestamp e) = true.
Proof. apply strftime_ts_chars. Qed.

Lemma out_path_eq (e : env) :
  out_path e = out_dir e +:+ String sep (file_name (timestamp e)).
Proof.
  unfold out_path, Posixpath.join. cbn [fold_left].
  apply join_step_plain; [apply out_dir_plain | reflexivity].
Qed.

(** The file lies directly in the results directory. *)
Lemma split_out_path (e : env) :
  split (out_path e) = (out_dir e, file_name (timestamp e)).
Proof.
  rewrite out_path_eq.
  apply split_app; [apply out_dir_plain |].
  apply file_name_plain, timestamp_chars.
Qed.

Lemma out_path_neq_out_dir (e e' : env) :
  script_file e = script_file e' -> out_path e <> out_dir e'.
Proof.
  intros Hf H. rewrite out_path_eq in H.
  assert (out_dir e' = out_dir e) as Hd by (unfold out_dir; rewrite Hf; reflexivity).
  rewrite Hd in H. apply (f_equal String.length) in H.
  rewrite length_app in H. simpl in H. lia.
Qed.

Lemma out_path_neq_parent (e e' : env) :
  script_file e = script_file e' -> out_path e <> results_parent e'.
Proof.
  intros Hf H. rewrite out_path_eq, out_dir_eq in H.
  assert (results_parent e' = results_parent e) as Hd
    by (unfold results_parent; rewrite Hf; reflexivity).
  rewrite Hd in H. apply (f_equal String.length) in H.
  rewrite !length_app in H. simpl in H. lia.
Qed.


(** Runs of the same script open the same path exactly when their
    timestamps agree. *)
Lemma out_path_inj (e1 e2 : env) :
  script_file e1 = script_file e2 ->
  out_path e1 = out_path e2 -> timestamp e1 = timestamp e2.
Proof.
  intros Hf H. rewrite !out_path_eq in H.
  assert (out_dir e2 = out_dir e1) as Hd by (unfold out_dir; rewrite Hf; reflexivity).
  rewrite Hd in H. apply app_inv_head in H. injection H as H.
  unfold file_name in H. apply app_inv_head in H.
  apply app_inv_tail in H. exact H.
Qed.

End RunFacts.

(** ** The operating system model *)

Module OsFacts.
Import StringFacts Posixpath PathFacts Os.
Local Open Scope py_scope.

(** *** Relations kept by the statements of the monad *)

Section Keeps.
Variable R : world -> world -> Prop.
Hypothesis R_refl : forall w, R w w.
Hypothesis R_trans : forall w1 w2 w3, R w1 w2 -> R w2 w3 -> R w1 w3.

Lemma keeps_ret {A} (a : A) : keeps R (ret a).
Proof. intros w. apply R_refl. Qed.

Lemma keeps_raise {A} (x : exn) : keeps R (raise x : M A).
Proof. intros w. apply R_refl. Qed.

Lemma keeps_bind {A B} (m : M A) (k : A -> M B) :
  keeps R m -> (forall a, keeps R (k a)) -> keeps R (bind m k).
Proof.
  intros Hm Hk w. unfold bind. specialize (Hm w).
  destruct (m w) as [a w1 | x w1]; simpl in *.
  - exact (R_trans _ _ _ Hm (Hk a w1)).
  - exact Hm.
Qed.

Lemma keeps_try {A} (m : M A) (h : exn -> M A) :
  keeps R m -> (forall x, keeps R (h x)) -> keeps R (try_except m h).
Proof.
  intros Hm Hh w. unfold try_except. specialize (Hm w).
  destruct (m w) as [a w1 | x w1]; simpl in *.
  - exact Hm.
  - exact (R_trans _ _ _ Hm (Hh x w1)).
Qed.

Lemma keeps_path_exists (p : string) : keeps R (path_exists p).
Proof. intros w. apply R_refl. Qed.

Lemma keeps_path_isdir (p : string) : keeps R (path_isdir p).
Proof. intros w. apply R_refl. Qed.

End Keeps.

Lemma touches_refl (q : string) (w : world) : touches q w w.
Proof. intros p _. left. reflexivity. Qed.

Lemma touches_trans (q : string) (w1 w2 w3 : world) :
  touches q w1 w2 -> touches q w2 w3 -> touches q w1 w3.
Proof.
  intros H12 H23 p Hp.
  destruct (H12 p Hp) as [E12 | [N1 D2]], (H23 p Hp) as [E23 | [N2 D3]].
  - left. congruence.
  - right. split; congruence.
  - right. split; congruence.
  - congruence.
Qed.

Lemma silent_refl (w : world) : silent w w.
Proof. reflexivity. Qed.

Lemma silent_trans (w1 w2 w3 : world) : silent w1 w2 -> silent w2 w3 -> silent w1 w3.
Proof. unfold silent. congruence. Qed.

(** *** Exceptions a statement can raise *)







Section Run.
Variable e : env.

(** *** [os.mkdir] *)

Lemma mkdir_touches (q p : string) : keeps (touches q) (mkdir e p).
Proof.
  intros w. unfold mkdir.
  destruct (fault e (SysMkdir p)); [apply touches_refl |].
  destruct (fs w !! p) eqn:Hp; [apply touches_refl |].
  destruct (parent_ok (fs w) p); [| apply touches_refl].
  intros p' _. simpl.
  destruct (decide (p = p')) as [<- | Hne].
  - right. split; [exact Hp | apply lookup_insert_eq].
  - left. apply lookup_insert_ne, Hne.
Qed.

Lemma mkdir_silent (p : string) : keeps silent (mkdir e p).
Proof.
  intros w. unfold mkdir.
  destruct (fault e (SysMkdir p)); [reflexivity |].
  destruct (fs w !! p); [reflexivity |].
  destruct (parent_ok (fs w) p); reflexivity.
Qed.


(** *** [os.makedirs] *)

Lemma mkdir_leaf_keeps (R : world -> world -> Prop) (name : string) (ok : bool) :
  (forall w, R w w) ->
  (forall w1 w2 w3, R w1 w2 -> R w2 w3 -> R w1 w3) ->
  keeps R (mkdir e name) ->
  keeps R (mkdir_leaf e name ok).
Proof.
  intros Hrefl Htrans Hmk.
  apply keeps_try; [exact Htrans | apply Hmk |].
  intros x. apply keeps_bind; [exact Htrans | apply keeps_path_isdir, Hrefl |].
  intros d. destruct (negb ok || negb d); [apply keeps_raise | apply keeps_ret];
    exact Hrefl.
Qed.

(** Whatever [os.mkdir] keeps, [os.makedirs] keeps. *)
Lemma makedirs_fuel_keeps (R : world -> world -> Prop) :
  (forall w, R w w) ->
  (forall w1 w2 w3, R w1 w2 -> R w2 w3 -> R w1 w3) ->
  (forall p, keeps R (mkdir e p)) ->
  forall f name ok, keeps R (makedirs_fuel e f name ok).
Proof.
  intros Hrefl Htrans Hmk.
  induction f as [| f IH]; intros name ok; [apply keeps_raise, Hrefl |].
  cbn [makedirs_fuel].
  destruct (split name) as [h0 t0].
  destruct (if is_empty t0 then split h0 else (h0, t0)) as [h t].
  apply keeps_bind; [exact Htrans | |].
  { destruct (negb (is_empty h) && negb (is_empty t)).
    - apply keeps_bind; [exact Htrans | apply keeps_path_exists, Hrefl |].
      intros b. apply keeps_ret, Hrefl.
    - apply keeps_ret, Hrefl. }
  intros missing. apply keeps_bind; [exact Htrans | |].
  { destruct missing; [| apply keeps_ret, Hrefl].
    apply keeps_bind; [exact Htrans | | intros _; apply keeps_ret, Hrefl].
    apply keeps_try; [exact Htrans | apply IH |].
    intros x. destruct (is_file_exists x); [apply keeps_ret | apply keeps_raise];
      exact Hrefl. }
  intros stop. destruct stop; [apply keeps_ret, Hrefl |].
  apply mkdir_leaf_keeps; [exact Hrefl | exact Htrans | apply Hmk].
Qed.

(** [os.makedirs] only adds directories, and prints nothing. *)
Lemma makedirs_touches (q name : string) (ok : bool) :
  keeps (touches q) (makedirs e name ok).
Proof.
  apply makedirs_fuel_keeps;
    [apply touches_refl | apply touches_trans | apply mkdir_touches].
Qed.

Lemma makedirs_silent (name : string) (ok : bool) :
  keeps silent (makedirs e name ok).
Proof.
  apply makedirs_fuel_keeps;
    [apply silent_refl | apply silent_trans | apply mkdir_silent].
Qed.





(** When the parent of the leaf is there, nothing is created above it. *)
Lemma makedirs_leaf (name h t : string) (ok : bool) (w : world) :
  split name = (h, t) -> is_empty t = false ->
  is_empty h = true \/ is_Some (fs w !! h) ->
  makedirs e name ok w = mkdir_leaf e name ok w.
Proof.
  intros Hs Ht Hh. unfold makedirs. cbn [makedirs_fuel].
  rewrite Hs, Ht.
  destruct Hh as [Hh | Hh].
  - rewrite Hh. reflexivity.
  - destruct (is_empty h); [reflexivity |].
    rewrite Ht. simpl negb. simpl andb.
    unfold bind at 1 2. unfold path_exists at 1.
    rewrite (bool_decide_eq_true_2 _ Hh). reflexivity.
Qed.

End Run.
End OsFacts.

(** ** Directories and files *)

Module FileFacts.
Import StringFacts Posixpath PathFacts Os OsFacts.
Local Open Scope py_scope.

Lemma changes_within_refl (qs : list string) (w : world) : changes_within qs w w.
Proof. intros p _. reflexivity. Qed.

Lemma changes_within_trans (qs : list string) (w1 w2 w3 : world) :
  changes_within qs w1 w2 -> changes_within qs w2 w3 -> changes_within qs w1 w3.
Proof. intros H12 H23 p Hp. rewrite (H23 p Hp). apply (H12 p Hp). Qed.

Lemma changes_within_touches (q : string) (w w' : world) :
  changes_within [q] w w' -> touches q w w'.
Proof.
  intros H p Hp. left. apply H. intros Hin. apply list_elem_of_singleton in Hin.
  contradiction.
Qed.

Lemma ends_plain_not_empty (p : string) : ends_plain p -> is_empty p = false.
Proof. intros (h & c & -> & _). apply is_empty_app_cons. Qed.

Lemma ends_plain_not_all_sep (p : string) : ends_plain p -> all_sep p = false.
Proof. intros (h & c & -> & Hc). apply all_sep_app_plain, Hc. Qed.

(** An entry whose parent, as [os.path.split] gives it, is a proper
    path can be created exactly when that parent is a directory. *)
Lemma parent_ok_split (t : gmap string node) (p h x : string) :
  split p = (h, x) -> ends_plain h -> parent_ok t p = is_dir t h.
Proof.
  intros Hs Hh. unfold parent_ok, dirname. rewrite Hs. simpl.
  rewrite (ends_plain_not_empty h Hh), (ends_plain_not_all_sep h Hh). reflexivity.
Qed.

Lemma is_dir_lookup (t : gmap string node) (p : string) :
  is_dir t p = true <-> t !! p = Some Dir.
Proof.
  unfold is_dir. destruct (t !! p) as [[| d] |]; split; congruence.
Qed.

Section Run.
Variable e : env.

(** *** [os.mkdir] and the last step of [os.makedirs] *)

Lemma mkdir_changes (p : string) (qs : list string) :
  p ∈ qs -> keeps (changes_within qs) (mkdir e p).
Proof.
  intros Hin w. unfold mkdir.
  destruct (fault e (SysMkdir p)); [apply changes_within_refl |].
  destruct (fs w !! p); [apply changes_within_refl |].
  destruct (parent_ok (fs w) p); [| apply changes_within_refl].
  intros p' Hp'. simpl. apply lookup_insert_ne. intros ->. contradiction.
Qed.

(** An existing directory is left alone, whatever [os.mkdir] answers. *)
Lemma mkdir_leaf_existing (name : string) (w : world) :
  is_dir (fs w) name = true -> mkdir_leaf e name true w = Ret tt w.
Proof.
  intros Hd. unfold mkdir_leaf, try_except, mkdir.
  pose proof (proj1 (is_dir_lookup _ _) Hd) as Hl.
  destruct (fault e (SysMkdir name)).
  - unfold bind, path_isdir. rewrite Hd. reflexivity.
  - rewrite Hl. unfold bind, path_isdir. rewrite Hd. reflexivity.
Qed.

Lemma mkdir_leaf_fresh (name : string) (ok : bool) (w : world) :
  fs w !! name = None -> fault e (SysMkdir name) = None ->
  parent_ok (fs w) name = true ->
  mkdir_leaf e name ok w = Ret tt (mk_world (<[name := Dir]> (fs w)) (stdout w)).
Proof.
  intros Hl Hf Hp. unfold mkdir_leaf, try_except, mkdir.
  rewrite Hf, Hl, Hp. reflexivity.
Qed.

(** When it completes, the leaf is a directory. *)
Lemma mkdir_leaf_post (name : string) (w w' : world) :
  mkdir_leaf e name true w = Ret tt w' -> is_dir (fs w') name = true.
Proof.
  unfold mkdir_leaf, try_except, mkdir.
  destruct (fault e (SysMkdir name)).
  - unfold bind, path_isdir. destruct (is_dir (fs w) name) eqn:Hd; [| discriminate].
    simpl. intros H. injection H as <-. exact Hd.
  - destruct (fs w !! name) eqn:Hl.
    + unfold bind, path_isdir. destruct (is_dir (fs w) name) eqn:Hd; [| discriminate].
      simpl. intros H. injection H as <-. exact Hd.
    + destruct (parent_ok (fs w) name).
      * intros H. injection H as <-. simpl. apply is_dir_lookup, lookup_insert_eq.
      * unfold bind, path_isdir. unfold is_dir. rewrite Hl. discriminate.
Qed.

(** *** [open], [write] and [print] *)

(** The [with] statement of [main], when it completes: neither request
    was refused, the path did not name a directory, and the file holds
    exactly the text of the dump. *)
Lemma write_file_ret (p : string) (obj : Json.value) (k : nat) (w w' : world) :
  with_open_w e p (fun f => json_dump e obj f k) w = Ret tt w' ->
  fault e (SysOpen p) = None /\ fault e (SysWrite p) = None /\
  fs w !! p <> Some Dir /\
  w' = mk_world (<[p := File (Json.dump_text obj k)]> (fs w)) (stdout w).
Proof.
  unfold with_open_w, bind, open_w, json_dump, write.
  destruct (fault e (SysOpen p)); [discriminate |].
  assert (forall w1 : world,
    fs w1 = <[p := File ""]> (fs w) -> stdout w1 = stdout w ->
    match fault e (SysWrite p) with
    | Some c => Raise (OSError c p) w1
    | None =>
        match fs w1 !! p with
        | Some (File d) =>
            Ret tt (mk_world (<[p := File (d +:+ Json.dump_text obj k)]> (fs w1))
                      (stdout w1))
        | _ => Raise (OSError EBADF p) w1
        end
    end = Ret tt w' ->
    fault e (SysWrite p) = None /\
    w' = mk_world (<[p := File (Json.dump_text obj k)]> (fs w)) (stdout w)) as Hw.
  { intros w1 Hfs Hout. destruct (fault e (SysWrite p)); [discriminate |].
    rewrite Hfs, lookup_insert_eq, insert_insert_eq, Hout.
    intros H. injection H as <-. split; reflexivity. }
  destruct (fs w !! p) as [[| d] |] eqn:Hl.
  - discriminate.
  - intros H. apply Hw in H; [| reflexivity ..]. destruct H as [H1 H2].
    repeat split; [exact H1 | discriminate | exact H2].
  - destruct (parent_ok (fs w) p); [| discriminate].
    intros H. apply Hw in H; [| reflexivity ..]. destruct H as [H1 H2].
    repeat split; [exact H1 | discriminate | exact H2].
Qed.

(** It completes when neither request is refused and the path names a
    regular file, or nothing in an existing directory. *)
Lemma write_file_ok (p : string) (obj : Json.value) (k : nat) (w : world) :
  fault e (SysOpen p) = None -> fault e (SysWrite p) = None ->
  is_file (fs w) p = true \/ (fs w !! p = None /\ parent_ok (fs w) p = true) ->
  with_open_w e p (fun f => json_dump e obj f k) w
  = Ret tt (mk_world (<[p := File (Json.dump_text obj k)]> (fs w)) (stdout w)).
Proof.
  intros Ho Hw Hp. unfold with_open_w, bind, open_w, json_dump, write.
  rewrite Ho.
  destruct Hp as [Hf | [Hl Hpar]].
  - unfold is_file in Hf. destruct (fs w !! p) as [[| d] |]; try discriminate.
    simpl. rewrite Hw, lookup_insert_eq, insert_insert_eq. reflexivity.
  - rewrite Hl, Hpar. simpl. rewrite Hw, lookup_insert_eq, insert_insert_eq.
    reflexivity.
Qed.

Lemma open_w_changes (p : string) (qs : list string) :
  p ∈ qs -> keeps (changes_within qs) (open_w e p).
Proof.
  intros Hin w. unfold open_w.
  destruct (fault e (SysOpen p)); [apply changes_within_refl |].
  destruct (fs w !! p) as [[| d] |]; [apply changes_within_refl | |].
  - intros p' Hp'. simpl. apply lookup_insert_ne. intros ->. contradiction.
  - destruct (parent_ok (fs w) p); [| apply changes_within_refl].
    intros p' Hp'. simpl. apply lookup_insert_ne. intros ->. contradiction.
Qed.

Lemma write_changes (f text : string) (qs : list string) :
  f ∈ qs -> keeps (changes_within qs) (write e f text).
Proof.
  intros Hin w. unfold write.
  destruct (fault e (SysWrite f)); [apply changes_within_refl |].
  destruct (fs w !! f) as [[| d] |]; try apply changes_within_refl.
  intros p' Hp'. simpl. apply lookup_insert_ne. intros ->. contradiction.
Qed.

Lemma open_w_handle (p : string) (w w' : world) (f : string) :
  open_w e p w = Ret f w' -> f = p.
Proof.
  unfold open_w. destruct (fault e (SysOpen p)); [discriminate |].
  destruct (fs w !! p) as [[| d] |]; [discriminate | |].
  - intros H. injection H as <- _. reflexivity.
  - destruct (parent_ok (fs w) p); [| discriminate].
    intros H. injection H as <- _. reflexivity.
Qed.

Lemma write_file_changes (p : string) (obj : Json.value) (k : nat)
    (qs : list string) :
  p ∈ qs ->
  keeps (changes_within qs) (with_open_w e p (fun f => json_dump e obj f k)).
Proof.
  intros Hin w. unfold with_open_w, bind.
  pose proof (open_w_changes p qs Hin w) as Ho.
  destruct (open_w e p w) as [f w1 | x w1] eqn:E; simpl in *; [| exact Ho].
  apply open_w_handle in E. subst f.
  eapply changes_within_trans; [exact Ho |]. apply write_changes, Hin.
Qed.


Lemma print_changes (s : string) (qs : list string) :
  keeps (changes_within qs) (print s).
Proof. intros w p _. reflexivity. Qed.

End Run.
End FileFacts.

(** ** The runs of [main] *)

Module MainFacts.
Import StringFacts Posixpath PathFacts Dict Json JsonFacts Os OsFacts FileFacts.
Import Run RunFacts.
Local Open Scope py_scope.

Section Main.
Variable e : env.

(** The three statements of [main] that act on the world. *)
Lemma main_steps (w : world) :
  main e w
  = match makedirs e (out_dir e) true w with
    | Ret _ w1 =>
        match with_open_w e (out_path e)
                (fun f => json_dump e (JObj (result (timestamp e))) f 2) w1 with
        | Ret _ w2 => print (dumps (JObj (result (timestamp e)))) w2
        | Raise x w2 => Raise x w2
        end
    | Raise x w1 => Raise x w1
    end.
Proof. reflexivity. Qed.

(** What a completed run went through. *)
Lemma main_ret_inv (w w' : world) :
  main e w = Ret tt w' ->
  exists w1,
    makedirs e (out_dir e) true w = Ret tt w1 /\
    fault e (SysOpen (out_path e)) = None /\
    fault e (SysWrite (out_path e)) = None /\
    fs w1 !! out_path e <> Some Dir /\
    w' = mk_world (<[out_path e := File (file_text (timestamp e))]> (fs w1))
           (stdout w ++ [stdout_line (timestamp e)]).
Proof.
  rewrite main_steps.
  destruct (makedirs e (out_dir e) true w) as [[] w1 | x w1] eqn:Em; [| discriminate].
  destruct (with_open_w e (out_path e) _ w1) as [[] w2 | x w2] eqn:Ew; [| discriminate].
  apply write_file_ret in Ew. destruct Ew as (Ho & Hw & Hd & ->).
  unfold print. simpl. intros H. injection H as <-.
  exists w1. repeat split; try assumption.
  pose proof (makedirs_silent e (out_dir e) true w) as Hs. rewrite Em in Hs.
  simpl in Hs. unfold silent in Hs. rewrite Hs. reflexivity.
Qed.

(** A completed run has written the dump to the file and printed the
    line. *)
Lemma main_post (w w' : world) :
  main e w = Ret tt w' ->
  fs w' !! out_path e = Some (File (file_text (timestamp e))) /\
  stdout w' = stdout w ++ [stdout_line (timestamp e)].
Proof.
  intros H. apply main_ret_inv in H. destruct H as (w1 & _ & _ & _ & _ & ->).
  simpl. split; [apply lookup_insert_eq | reflexivity].
Qed.

(** Whatever its outcome, a run changes nothing but the file it opens,
    apart from adding directories. *)
Lemma main_touches : keeps (touches (out_path e)) (main e).
Proof.
  rewrite main_unfold.
  apply keeps_bind; [apply touches_trans | apply makedirs_touches |].
  intros _. apply keeps_bind; [apply touches_trans | |].
  - intros w. apply changes_within_touches, write_file_changes.
    apply list_elem_of_singleton. reflexivity.
  - intros _ w p _. left. reflexivity.
Qed.

(** With the parent of the results directory in place, the only paths a
    run can change are the file and the results directory. *)
Lemma main_changes (w : world) :
  is_dir (fs w) (results_parent e) = true ->
  changes_within [out_path e; out_dir e] w (final (main e w)).
Proof.
  intros Hp. rewrite main_steps.
  rewrite (makedirs_leaf e (out_dir e) (results_parent e) "results" true w
             (split_out_dir e) eq_refl).
  2:{ right. apply is_dir_lookup in Hp. rewrite Hp. eauto. }
  assert (out_dir e ∈ [out_path e; out_dir e]) as Hin2
    by apply list_elem_of_further, list_elem_of_here.
  assert (out_path e ∈ [out_path e; out_dir e]) as Hin1
    by apply list_elem_of_here.
  pose proof (mkdir_leaf_keeps e (changes_within [out_path e; out_dir e])
                (out_dir e) true
                (changes_within_refl _) (changes_within_trans _)
                (mkdir_changes e (out_dir e) _ Hin2) w) as Hm.
  destruct (mkdir_leaf e (out_dir e) true w) as [[] w1 | x w1]; simpl in Hm;
    [| exact Hm].
  pose proof (write_file_changes e (out_path e) (JObj (result (timestamp e))) 2
                [out_path e; out_dir e] Hin1 w1) as Hw.
  destruct (with_open_w e (out_path e) _ w1) as [[] w2 | x w2]; simpl in Hw.
  - eapply changes_within_trans; [exact Hm |].
    eapply changes_within_trans; [exact Hw |]. apply print_changes.
  - eapply changes_within_trans; [exact Hm | exact Hw].
Qed.


(** The directory step of [main] when the parent is in place. *)
Lemma makedirs_out_dir (w : world) :
  is_dir (fs w) (results_parent e) = true ->
  makedirs e (out_dir e) true w = mkdir_leaf e (out_dir e) true w.
Proof.
  intros Hp.
  apply (makedirs_leaf e (out_dir e) (results_parent e) "results" true w
           (split_out_dir e) eq_refl).
  right. apply is_dir_lookup in Hp. rewrite Hp. eauto.
Qed.

Lemma parent_ok_out_dir (t : gmap string node) :
  parent_ok t (out_dir e) = is_dir t (results_parent e).
Proof.
  apply (parent_ok_split t _ _ _ (split_out_dir e)), results_parent_plain.
Qed.

Lemma parent_ok_out_path (t : gmap string node) :
  parent_ok t (out_path e) = is_dir t (out_dir e).
Proof.
  apply (parent_ok_split t _ _ _ (split_out_path e)), out_dir_plain.
Qed.

(** Conditions under which a run completes: the parent of the results
    directory exists, the results directory exists or can be made, the
    path of the file is not taken by a directory, and the system refuses
    neither to open nor to write the file. *)
Lemma main_succeeds (w : world) :
  is_dir (fs w) (results_parent e) = true ->
  is_dir (fs w) (out_dir e) = true
  \/ (fs w !! out_dir e = None /\ fault e (SysMkdir (out_dir e)) = None) ->
  is_dir (fs w) (out_path e) = false ->
  fault e (SysOpen (out_path e)) = None ->
  fault e (SysWrite (out_path e)) = None ->
  exists w', main e w = Ret tt w'.
Proof.
  intros Hp Hd Hf Ho Hw. rewrite main_steps, (makedirs_out_dir w Hp).
  assert (exists w1, mkdir_leaf e (out_dir e) true w = Ret tt w1 /\
            is_dir (fs w1) (out_dir e) = true /\
            fs w1 !! out_path e = fs w !! out_path e) as (w1 & -> & Hd1 & Hf1).
  { destruct Hd as [Hd | [Hn Hm]].
    - exists w. rewrite (mkdir_leaf_existing e _ w Hd). auto.
    - eexists. rewrite (mkdir_leaf_fresh e _ true w Hn Hm)
        by (rewrite parent_ok_out_dir; exact Hp).
      split; [reflexivity |]. simpl. split.
      + apply is_dir_lookup, lookup_insert_eq.
      + apply lookup_insert_ne. intros H. symmetry in H.
        exact (out_path_neq_out_dir e e eq_refl H). }
  rewrite (write_file_ok e (out_path e) _ 2 w1 Ho Hw).
  - eexists. reflexivity.
  - unfold is_file. rewrite Hf1. unfold is_dir in Hf.
    destruct (fs w !! out_path e) as [[| d] |] eqn:Hl; [discriminate | auto |].
    right. split; [reflexivity |]. rewrite parent_ok_out_path. exact Hd1.
Qed.

End Main.
End MainFacts.

Module Claims.
Import StringFacts Posixpath PathFacts Dict Json JsonFacts Os OsFacts FileFacts.
Import Time TimeFacts Re Run RunFacts MainFacts Sample.
Local Open Scope py_scope.

Lemma first_run : main at_noon checkout = Ret tt after_first.
Proof. vm_compute. reflexivity. Qed.

Lemma second_run : main a_second_later after_first = Ret tt after_second.
Proof. vm_compute. reflexivity. Qed.

Lemma repeat_run : main at_noon after_first = Ret tt after_repeat.
Proof. vm_compute. reflexivity. Qed.

(** C1: the record of every run has exactly the keys [timestamp],
    [instances], [resolved] and [score], the last three with the integer
    0; what [json.dumps] makes of it is JSON for this record; and a
    completed run has written this record to the file and printed it. *)
Theorem main_record_fields (e : env) :
  dict_keys (result (timestamp e))
  = ["timestamp"; "instances"; "resolved"; "score"] /\
  dict_get (result (timestamp e)) "timestamp" = Some (JStr (timestamp e)) /\
  dict_get (result (timestamp e)) "instances" = Some (JInt 0) /\
  dict_get (result (timestamp e)) "resolved" = Some (JInt 0) /\
  dict_get (result (timestamp e)) "score" = Some (JInt 0) /\
  loads (dumps (JObj (result (timestamp e)))) = Some (JObj (result (timestamp e))) /\
  forall w w', main e w = Ret tt w' ->
    fs w' !! out_path e
    = Some (File (dump_text (JObj (result (timestamp e))) 2)) /\
    stdout w' = stdout w ++ [dumps (JObj (result (timestamp e))) +:+ String newline ""].
Proof.
  split; [reflexivity |]. split; [reflexivity |]. split; [reflexivity |].
  split; [reflexivity |]. split; [reflexivity |].
  split; [apply loads_dumps_result |].
  intros w w' H. exact (main_post e w w' H).
Qed.

Lemma main_record_fields_witness :
  main at_noon checkout = Ret tt after_first /\
  fs after_first !! out_path at_noon
  = Some (File (dump_text (JObj (result (timestamp at_noon))) 2)).
Proof.
  split; [exact first_run |].
  destruct (main_record_fields at_noon) as (_ & _ & _ & _ & _ & _ & H).
  exact (proj1 (H checkout after_first first_run)).
Defined.

(** C2: after a completed run the text in the file (indented by two
    spaces) and the line on standard output (compact) both parse, with
    [json.loads], to the record of the run. *)
Theorem file_and_stdout_parse_alike (e : env) (w w' : world) :
  main e w = Ret tt w' ->
  exists text line,
    text = dump_text (JObj (result (timestamp e))) 2 /\
    line = dumps (JObj (result (timestamp e))) +:+ String newline "" /\
    fs w' !! out_path e = Some (File text) /\
    stdout w' = stdout w ++ [line] /\
    loads text = Some (JObj (result (timestamp e))) /\
    loads line = Some (JObj (result (timestamp e))) /\
    loads text = loads line.
Proof.
  intros H. destruct (main_post e w w' H) as [Hf Ho].
  exists (file_text (timestamp e)), (stdout_line (timestamp e)).
  split; [reflexivity |]. split; [reflexivity |].
  split; [exact Hf |]. split; [exact Ho |].
  rewrite loads_file_text, loads_stdout_line. auto.
Qed.

Lemma file_and_stdout_parse_alike_witness :
  main at_noon checkout = Ret tt after_first /\
  exists text line,
    text = dump_text (JObj (result (timestamp at_noon))) 2 /\
    line = dumps (JObj (result (timestamp at_noon))) +:+ String newline "" /\
    fs after_first !! out_path at_noon = Some (File text) /\
    stdout after_first = stdout checkout ++ [line] /\
    loads text = Some (JObj (result (timestamp at_noon))) /\
    loads line = Some (JObj (result (timestamp at_noon))) /\
    loads text = loads line.
Proof.
  split; [exact first_run |].
  exact (file_and_stdout_parse_alike at_noon checkout after_first first_run).
Defined.



(** C4: the path [main] opens is the results directory, a separator, and
    [swebench-<timestamp>.json], with the very string that is in the
    record's [timestamp] field; [os.path.split] gives these two parts
    back. *)
Theorem out_path_composition (e : env) :
  out_path e = out_dir e +:+ "/" +:+ "swebench-" +:+ timestamp e +:+ ".json" /\
  split (out_path e) = (out_dir e, "swebench-" +:+ timestamp e +:+ ".json") /\
  dict_get (result (timestamp e)) "timestamp" = Some (JStr (timestamp e)) /\
  main e
  = (makedirs e (out_dir e) true ;;
     with_open_w e
       (out_dir e +:+ "/" +:+ "swebench-" +:+ timestamp e +:+ ".json")
       (fun f => json_dump e (JObj (result (timestamp e))) f 2) ;;
     print (dumps (JObj (result (timestamp e))))) /\
  forall w w', main e w = Ret tt w' ->
    is_file (fs w')
      (out_dir e +:+ "/" +:+ "swebench-" +:+ timestamp e +:+ ".json") = true.
Proof.
  assert (out_path e
          = out_dir e +:+ "/" +:+ "swebench-" +:+ timestamp e +:+ ".json") as Hp.
  { rewrite out_path_eq. reflexivity. }
  split; [exact Hp |]. split; [apply split_out_path |]. split; [reflexivity |].
  rewrite <- Hp. split; [apply main_unfold |].
  intros w w' H. destruct (main_post e w w' H) as [Hf _].
  unfold is_file. rewrite Hf. reflexivity.
Qed.

Lemma out_path_composition_witness :
  main at_noon checkout = Ret tt after_first /\
  is_file (fs after_first)
    (out_dir at_noon +:+ "/" +:+ "swebench-" +:+ timestamp at_noon +:+ ".json")
  = true.
Proof.
  split; [exact first_run |].
  destruct (out_path_composition at_noon) as (_ & _ & _ & _ & H).
  exact (H checkout after_first first_run).
Defined.

Lemma touches_is_dir (q p : string) (w w' : world) :
  touches q w w' -> p <> q -> is_dir (fs w) p = true -> is_dir (fs w') p = true.
Proof.
  intros Ht Hp Hd. apply is_dir_lookup in Hd. apply is_dir_lookup.
  destruct (Ht p Hp) as [E | [N _]]; congruence.
Qed.

Lemma touches_file (q p : string) (d : string) (w w' : world) :
  touches q w w' -> p <> q ->
  (fs w' !! p = Some (File d) <-> fs w !! p = Some (File d)).
Proof.
  intros Ht Hp. destruct (Ht p Hp) as [E | [N D]].
  - rewrite E. reflexivity.
  - rewrite N, D. split; discriminate.
Qed.

Lemma checkout_parent : is_dir (fs checkout) (results_parent at_noon) = true.
Proof. vm_compute. reflexivity. Qed.




(** C6: two completed runs of the script, one after the other, whose
    timestamps differ, have opened different paths, and after the second
    both files are there, each with the text of its own run; a file the
    second run is going to write is not touched by the first. *)
Theorem distinct_timestamps_distinct_files (e1 e2 : env) (w0 w1 w2 : world) :
  script_file e1 = script_file e2 ->
  timestamp e1 <> timestamp e2 ->
  main e1 w0 = Ret tt w1 ->
  main e2 w1 = Ret tt w2 ->
  out_path e1 <> out_path e2 /\
  fs w2 !! out_path e1 = Some (File (file_text (timestamp e1))) /\
  fs w2 !! out_path e2 = Some (File (file_text (timestamp e2))) /\
  (forall d, fs w1 !! out_path e2 = Some (File d) <->
             fs w0 !! out_path e2 = Some (File d)).
Proof.
  intros Hf Hts H1 H2.
  assert (out_path e1 <> out_path e2) as Hne.
  { intros E. apply Hts. exact (out_path_inj e1 e2 Hf E). }
  destruct (main_post e1 w0 w1 H1) as [Hf1 _].
  destruct (main_post e2 w1 w2 H2) as [Hf2 _].
  pose proof (main_touches e1 w0) as Ht1. rewrite H1 in Ht1. simpl in Ht1.
  pose proof (main_touches e2 w1) as Ht2. rewrite H2 in Ht2. simpl in Ht2.
  split; [exact Hne |]. split; [| split; [exact Hf2 |]].
  - apply (touches_file _ _ _ w1 w2 Ht2 Hne). exact Hf1.
  - intros d. apply (touches_file _ _ _ w0 w1 Ht1). congruence.
Qed.

Lemma distinct_timestamps_distinct_files_witness :
  script_file at_noon = script_file a_second_later /\
  timestamp at_noon <> timestamp a_second_later /\
  main at_noon checkout = Ret tt after_first /\
  main a_second_later after_first = Ret tt after_second /\
  out_path at_noon <> out_path a_second_later /\
  fs after_second !! out_path at_noon
  = Some (File (file_text (timestamp at_noon))) /\
  fs after_second !! out_path a_second_later
  = Some (File (file_text (timestamp a_second_later))).
Proof.
  assert (timestamp at_noon <> timestamp a_second_later) as Hts
    by (vm_compute; discriminate).
  split; [reflexivity |]. split; [exact Hts |].
  split; [exact first_run |]. split; [exact second_run |].
  destruct (distinct_timestamps_distinct_files at_noon a_second_later
              checkout after_first after_second eq_refl Hts first_run second_run)
    as (H1 & H2 & H3 & _).
  auto.
Defined.




(** When the directory step of [main] completes, the results directory
    is there, whether or not directories above it had to be made. *)
Lemma makedirs_out_dir_post (e : env) (w w1 : world) :
  makedirs e (out_dir e) true w = Ret tt w1 -> is_dir (fs w1) (out_dir e) = true.
Proof.
  intros Hm. unfold makedirs in Hm.
  cbn [makedirs_fuel] in Hm. rewrite split_out_dir in Hm. simpl in Hm.
  unfold bind at 1 in Hm.
  destruct (_ : outcome bool) as [missing w0 | x w0] in Hm; [| discriminate].
  unfold bind at 1 in Hm.
  destruct (_ : outcome bool) as [stop w0' | x w0'] eqn:Es in Hm; [| discriminate].
  assert (stop = false) as ->.
  { destruct missing; simpl in Es.
    - unfold bind in Es. destruct (try_except _ _ w0); [| discriminate].
      injection Es as <- _. reflexivity.
    - injection Es as <- _. reflexivity. }
  apply mkdir_leaf_post in Hm. exact Hm.
Qed.

(** The failures of the two steps, request by request: a refused
    [os.mkdir] of a missing results directory, a refused [open], and a
    refused [write] each come out of [main]. *)
Lemma mkdir_fault_propagates (e : env) (w : world) (c : errno) :
  is_dir (fs w) (results_parent e) = true ->
  is_dir (fs w) (out_dir e) = false ->
  fault e (SysMkdir (out_dir e)) = Some c ->
  main e w = Raise (OSError c (out_dir e)) w.
Proof.
  intros Hp Hd Hf. rewrite main_steps, (makedirs_out_dir e w Hp).
  unfold mkdir_leaf, try_except, mkdir. rewrite Hf.
  unfold bind, path_isdir. rewrite Hd. reflexivity.
Qed.

Lemma open_fault_propagates (e : env) (w w1 : world) (c : errno) :
  makedirs e (out_dir e) true w = Ret tt w1 ->
  fault e (SysOpen (out_path e)) = Some c ->
  main e w = Raise (OSError c (out_path e)) w1.
Proof.
  intros Hm Hf. rewrite main_steps, Hm.
  unfold with_open_w, bind, open_w. rewrite Hf. reflexivity.
Qed.


(** A run that finds its file already there leaves no regular file at
    a path that was free. *)
Lemma existing_file_no_new_file (e : env) (w : world) :
  is_Some (fs w !! out_path e) -> ~ creates_new_file e w.
Proof.
  intros [x Hx] (p & Hn & Hf).
  destruct (decide (p = out_path e)) as [-> | Hne]; [congruence |].
  unfold is_file in Hf.
  destruct (main_touches e w p Hne) as [E | [_ D]].
  - rewrite E, Hn in Hf. discriminate.
  - rewrite D in Hf. discriminate.
Qed.

(** C8, as stated, fails: the run at noon, repeated with the same
    timestamp, completes without creating a file. *)
Lemma repeat_creates_no_file :
  main at_noon after_first = Ret tt after_repeat /\
  ~ creates_new_file at_noon after_first.
Proof.
  split; [exact repeat_run |].
  apply existing_file_no_new_file.
  destruct (main_post at_noon checkout after_first first_run) as [Hl _].
  rewrite Hl. eauto.
Qed.

(** C8, amended: a run, however it ends, changes no path but the one it
    opens, apart from adding directories, and with the parent of the
    results directory in place the only directory it can add is the
    results directory. A completed run leaves its text in the file it
    opened and every other regular file as it was; the file is a new one
    when its path was free. *)
Theorem main_writes_one_file (e : env) (w : world) :
  touches (out_path e) w (final (main e w)) /\
  (is_dir (fs w) (results_parent e) = true ->
   forall p, p <> out_path e -> p <> out_dir e ->
     fs (final (main e w)) !! p = fs w !! p) /\
  (forall w', main e w = Ret tt w' ->
     fs w' !! out_path e = Some (File (file_text (timestamp e))) /\
     (forall p d, p <> out_path e ->
        (fs w' !! p = Some (File d) <-> fs w !! p = Some (File d))) /\
     (fs w !! out_path e = None -> creates_new_file e w)).
Proof.
  split; [apply main_touches |]. split.
  - intros Hp p Hp1 Hp2. apply (main_changes e w Hp).
    intros Hin. apply elem_of_cons in Hin as [-> | Hin]; [contradiction |].
    apply list_elem_of_singleton in Hin. contradiction.
  - intros w' H. destruct (main_post e w w' H) as [Hf _].
    split; [exact Hf |]. split.
    + intros p d Hp. pose proof (main_touches e w) as Ht. rewrite H in Ht.
      apply (touches_file _ _ _ w w' Ht Hp).
    + intros Hn. exists (out_path e). split; [exact Hn |].
      rewrite H. simpl. unfold is_file. rewrite Hf. reflexivity.
Qed.

Lemma main_writes_one_file_witness :
  is_dir (fs checkout) (results_parent at_noon) = true /\
  main at_noon checkout = Ret tt after_first /\
  fs checkout !! out_path at_noon = None /\
  fs after_first !! out_path at_noon
  = Some (File (file_text (timestamp at_noon))) /\
  creates_new_file at_noon checkout /\
  fs (final (main at_noon checkout)) !! run_py = fs checkout !! run_py.
Proof.
  assert (fs checkout !! out_path at_noon = None) as Hn
    by (vm_compute; reflexivity).
  destruct (main_writes_one_file at_noon checkout) as (_ & H2 & H3).
  destruct (H3 after_first first_run) as (Hf & _ & Hc).
  split; [exact checkout_parent |]. split; [exact first_run |].
  split; [exact Hn |]. split; [exact Hf |]. split; [exact (Hc Hn) |].
  apply (H2 checkout_parent); vm_compute; discriminate.
Defined.

(** C9: the text in the file and the line printed by a completed run
    are functions of the timestamp alone: two completed runs with the
    same timestamp, from whatever worlds, have written the same text and
    printed the same line. *)
Theorem main_deterministic_in_timestamp (e1 e2 : env) (w1 w2 w1' w2' : world) :
  timestamp e1 = timestamp e2 ->
  main e1 w1 = Ret tt w1' ->
  main e2 w2 = Ret tt w2' ->
  fs w1' !! out_path e1 = Some (File (file_text (timestamp e1))) /\
  fs w2' !! out_path e2 = Some (File (file_text (timestamp e1))) /\
  stdout w1' = stdout w1 ++ [stdout_line (timestamp e1)] /\
  stdout w2' = stdout w2 ++ [stdout_line (timestamp e1)].
Proof.
  intros Hts H1 H2.
  destruct (main_post e1 w1 w1' H1) as [Hf1 Ho1].
  destruct (main_post e2 w2 w2' H2) as [Hf2 Ho2].
  rewrite <- Hts in Hf2, Ho2. auto.
Qed.

Lemma main_deterministic_in_timestamp_witness :
  timestamp at_noon = timestamp at_noon_denied /\
  main at_noon checkout = Ret tt after_first /\
  main at_noon after_first = Ret tt after_repeat /\
  fs after_first !! out_path at_noon
  = Some (File (file_text (timestamp at_noon))) /\
  fs after_repeat !! out_path at_noon
  = Some (File (file_text (timestamp at_noon))) /\
  stdout after_first = stdout checkout ++ [stdout_line (timestamp at_noon)] /\
  stdout after_repeat = stdout after_first ++ [stdout_line (timestamp at_noon)].
Proof.
  split; [reflexivity |]. split; [exact first_run |]. split; [exact repeat_run |].
  exact (main_deterministic_in_timestamp at_noon at_noon checkout after_first
           after_first after_repeat eq_refl first_run repeat_run).
Defined.

(** C10: when a run of the script has completed and a second one
    computes the same timestamp, the second opens the same path; if the
    system refuses neither to open nor to write it, the second run
    completes, the existence of the file raising nothing, and the file
    system is as the first run left it, with one file for the two runs.
    Whatever a file held, a completed run leaves its own text in it. *)
Theorem same_timestamp_overwrites (e1 e2 : env) (w0 w1 : world) :
  script_file e1 = script_file e2 ->
  timestamp e1 = timestamp e2 ->
  is_dir (fs w0) (results_parent e1) = true ->
  main e1 w0 = Ret tt w1 ->
  fault e2 (SysOpen (out_path e2)) = None ->
  fault e2 (SysWrite (out_path e2)) = None ->
  out_path e2 = out_path e1 /\
  (exists w2, main e2 w1 = Ret tt w2 /\ fs w2 = fs w1 /\
     fs w2 !! out_path e1 = Some (File (file_text (timestamp e2)))) /\
  (forall w old w', fs w !! out_path e2 = Some (File old) ->
     main e2 w = Ret tt w' ->
     fs w' !! out_path e2 = Some (File (file_text (timestamp e2)))).
Proof.
  intros Hf Hts Hp H1 Ho Hw.
  assert (out_dir e2 = out_dir e1) as Hd by (unfold out_dir; rewrite Hf; reflexivity).
  assert (results_parent e2 = results_parent e1) as Hrp
    by (unfold results_parent; rewrite Hf; reflexivity).
  assert (out_path e2 = out_path e1) as Hpath
    by (unfold out_path; rewrite Hd, Hts; reflexivity).
  destruct (main_post e1 w0 w1 H1) as [Hf1 _].
  pose proof (main_touches e1 w0) as Ht. rewrite H1 in Ht. simpl in Ht.
  assert (is_dir (fs w1) (results_parent e2) = true) as Hp1.
  { rewrite Hrp. apply (touches_is_dir _ _ w0 w1 Ht); [| exact Hp].
    intros E. symmetry in E. exact (out_path_neq_parent e1 e1 eq_refl E). }
  assert (is_dir (fs w1) (out_dir e2) = true) as Hd1.
  { rewrite Hd. apply main_ret_inv in H1.
    destruct H1 as (w' & Hm & _ & _ & _ & ->). simpl.
    apply makedirs_out_dir_post in Hm.
    apply is_dir_lookup. rewrite lookup_insert_ne.
    - apply is_dir_lookup, Hm.
    - exact (out_path_neq_out_dir e1 e1 eq_refl). }
  split; [exact Hpath |]. split.
  - destruct (main_succeeds e2 w1 Hp1 (or_introl Hd1)) as [w2 H2];
      [| exact Ho | exact Hw |].
    { unfold is_dir. rewrite Hpath, Hf1. reflexivity. }
    exists w2. split; [exact H2 |].
    destruct (main_post e2 w1 w2 H2) as [Hf2 _].
    apply main_ret_inv in H2. destruct H2 as (w' & Hm & _ & _ & _ & ->).
    rewrite (makedirs_out_dir e2 w1 Hp1), (mkdir_leaf_existing e2 _ w1 Hd1) in Hm.
    injection Hm as <-. simpl. rewrite Hpath, <- Hts.
    split; [| apply lookup_insert_eq]. apply insert_id. exact Hf1.
  - intros w old w' _ H. exact (proj1 (main_post e2 w w' H)).
Qed.

Lemma same_timestamp_overwrites_witness :
  script_file at_noon = script_file at_noon /\
  timestamp at_noon = timestamp at_noon /\
  is_dir (fs checkout) (results_parent at_noon) = true /\
  main at_noon checkout = Ret tt after_first /\
  exists w2, main at_noon after_first = Ret tt w2 /\ fs w2 = fs after_first /\
    fs w2 !! out_path at_noon = Some (File (file_text (timestamp at_noon))).
Proof.
  split; [reflexivity |]. split; [reflexivity |].
  split; [exact checkout_parent |]. split; [exact first_run |].
  exact (proj1 (proj2 (same_timestamp_overwrites at_noon at_noon checkout
                         after_first eq_refl eq_refl checkout_parent first_run
                         eq_refl eq_refl))).
Defined.

End Claims.

(** ** Timestamps and the order of time *)

Module OrderFacts.
Import Chars StringFacts CharsFacts Time TimeFacts Re Extra.

Lemma digit_char_code (d : Z) :
  (0 <= d < 10)%Z -> N_of_ascii (digit_char d) = Z.to_N (48 + d).
Proof.
  intros H.
  assert (d = 0 \/ d = 1 \/ d = 2 \/ d = 3 \/ d = 4 \/ d = 5 \/ d = 6
          \/ d = 7 \/ d = 8 \/ d = 9)%Z as Hd by lia.
  repeat (destruct Hd as [-> | Hd]; [reflexivity |]).
  subst d. reflexivity.
Qed.

(** Digits compare as the numbers they stand for. *)
Lemma digit_char_compare (a b : Z) :
  (0 <= a < 10)%Z -> (0 <= b < 10)%Z ->
  Ascii.compare (digit_char a) (digit_char b) = (a ?= b)%Z.
Proof.
  intros Ha Hb. unfold Ascii.compare.
  rewrite !digit_char_code by assumption.
  rewrite Z2N.inj_compare by lia.
  destruct (Z.compare_spec a b), (Z.compare_spec (48 + a) (48 + b));
    try reflexivity; lia.
Qed.

Lemma lex_eq (c1 c2 : comparison) : lex c1 c2 = Eq <-> c1 = Eq /\ c2 = Eq.
Proof. destruct c1, c2; simpl; intuition congruence. Qed.

(** Two digits against two digits, then the rest. *)
Lemma compare_digits2 (x y : Z) (r1 r2 : string) :
  (0 <= x < 100)%Z -> (0 <= y < 100)%Z ->
  String.compare
    (String (digit_char (x / 10)) (String (digit_char (x mod 10)) r1))
    (String (digit_char (y / 10)) (String (digit_char (y mod 10)) r2))
  = lex (x ?= y)%Z (String.compare r1 r2).
Proof.
  intros Hx Hy. cbn [String.compare].
  rewrite !digit_char_compare by (Z.div_mod_to_equations; lia).
  destruct (Z.compare_spec (x / 10) (y / 10)) as [E1 | L1 | G1].
  - destruct (Z.compare_spec (x mod 10) (y mod 10)) as [E2 | L2 | G2].
    + assert (x = y) as -> by (Z.div_mod_to_equations; lia).
      rewrite Z.compare_refl. reflexivity.
    + assert (x < y)%Z as H by (Z.div_mod_to_equations; lia).
      apply Z.compare_lt_iff in H. rewrite H. reflexivity.
    + assert (y < x)%Z as H by (Z.div_mod_to_equations; lia).
      apply Z.compare_gt_iff in H. rewrite H. reflexivity.
  - assert (x < y)%Z as H by (Z.div_mod_to_equations; lia).
    apply Z.compare_lt_iff in H. rewrite H. reflexivity.
  - assert (y < x)%Z as H by (Z.div_mod_to_equations; lia).
    apply Z.compare_gt_iff in H. rewrite H. reflexivity.
Qed.

Lemma pad2_digits (n : Z) :
  (0 <= n < 100)%Z ->
  pad2 n = String (digit_char (n / 10)) (String (digit_char (n mod 10)) "").
Proof.
  intros Hn. unfold pad2, repr_int.
  destruct (n <? 0)%Z eqn:Hneg; [apply Z.ltb_lt in Hneg; lia |].
  destruct (0 <=? n)%Z eqn:H0; [| apply Z.leb_gt in H0; lia].
  destruct (n <? 10)%Z eqn:H10; simpl.
  - apply Z.ltb_lt in H10. rewrite dec_1 by lia.
    rewrite Z.div_small, Z.mod_small by lia. reflexivity.
  - apply Z.ltb_ge in H10. apply dec_2. lia.
Qed.

(** A four-digit numeral as two pairs of digits. *)
Lemma dec_4_pairs (n : Z) :
  (1000 <= n < 10000)%Z ->
  dec n = String (digit_char ((n / 100) / 10))
            (String (digit_char ((n / 100) mod 10))
               (String (digit_char ((n mod 100) / 10))
                  (String (digit_char ((n mod 100) mod 10)) ""))).
Proof.
  intros Hn. rewrite dec_4 by exact Hn.
  replace (n / 10 / 10 / 10)%Z with (n / 100 / 10)%Z
    by (Z.div_mod_to_equations; lia).
  replace (n / 10 / 10 mod 10)%Z with ((n / 100) mod 10)%Z
    by (Z.div_mod_to_equations; lia).
  replace (n / 10 mod 10)%Z with ((n mod 100) / 10)%Z
    by (Z.div_mod_to_equations; lia).
  replace (n mod 10)%Z with ((n mod 100) mod 10)%Z
    by (Z.div_mod_to_equations; lia).
  reflexivity.
Qed.

Lemma compare_digits4 (x y : Z) (r1 r2 : string) :
  (1000 <= x < 10000)%Z -> (1000 <= y < 10000)%Z ->
  String.compare (dec x +:+ r1) (dec y +:+ r2)
  = lex (x ?= y)%Z (String.compare r1 r2).
Proof.
  intros Hx Hy. rewrite !dec_4_pairs by assumption.
  autorewrite with str.
  rewrite compare_digits2 by (Z.div_mod_to_equations; lia).
  rewrite compare_digits2 by (Z.div_mod_to_equations; lia).
  destruct (Z.compare_spec (x / 100) (y / 100)) as [E1 | L1 | G1]; simpl.
  - destruct (Z.compare_spec (x mod 100) (y mod 100)) as [E2 | L2 | G2]; simpl.
    + assert (x = y) as -> by (Z.div_mod_to_equations; lia).
      rewrite Z.compare_refl. reflexivity.
    + assert (x < y)%Z as H by (Z.div_mod_to_equations; lia).
      apply Z.compare_lt_iff in H. rewrite H. reflexivity.
    + assert (y < x)%Z as H by (Z.div_mod_to_equations; lia).
      apply Z.compare_gt_iff in H. rewrite H. reflexivity.
  - assert (x < y)%Z as H by (Z.div_mod_to_equations; lia).
    apply Z.compare_lt_iff in H. rewrite H. reflexivity.
  - assert (y < x)%Z as H by (Z.div_mod_to_equations; lia).
    apply Z.compare_gt_iff in H. rewrite H. reflexivity.
Qed.

Lemma compare_pad2 (x y : Z) (r1 r2 : string) :
  (0 <= x < 100)%Z -> (0 <= y < 100)%Z ->
  String.compare (pad2 x +:+ r1) (pad2 y +:+ r2)
  = lex (x ?= y)%Z (String.compare r1 r2).
Proof.
  intros Hx Hy. rewrite !pad2_digits by assumption.
  autorewrite with str. apply compare_digits2; assumption.
Qed.

Lemma lex_Eq_r (c : comparison) : lex c Eq = c.
Proof. destruct c; reflexivity. Qed.

Lemma compare_refl (s : string) : String.compare s s = Eq.
Proof.
  induction s as [| c s IH]; [reflexivity |].
  cbn [String.compare]. unfold Ascii.compare. rewrite N.compare_refl. exact IH.
Qed.

Lemma compare_app_head (p s t : string) :
  String.compare (p +:+ s) (p +:+ t) = String.compare s t.
Proof.
  induction p as [| c p IH]; [reflexivity |].
  rewrite !app_cons. cbn [String.compare]. unfold Ascii.compare.
  rewrite N.compare_refl. exact IH.
Qed.

(** The timestamps of two valid local times, each followed by more
    text, compare the way the times do, and then the way the rest
    does. *)
Lemma strftime_ts_compare_app (t1 t2 : struct_time) (r1 r2 : string) :
  valid_tm t1 -> valid_tm t2 ->
  String.compare (strftime "%Y%m%d-%H%M%S" t1 +:+ r1)
    (strftime "%Y%m%d-%H%M%S" t2 +:+ r2)
  = lex (tm_compare t1 t2) (String.compare r1 r2).
Proof.
  intros (Hy1 & Hm1 & Hd1 & HH1 & HM1 & HS1) (Hy2 & Hm2 & Hd2 & HH2 & HM2 & HS2).
  rewrite !strftime_ts. unfold repr_int, tm_compare.
  destruct (tm_year t1 <? 0)%Z eqn:N1; [apply Z.ltb_lt in N1; lia |].
  destruct (tm_year t2 <? 0)%Z eqn:N2; [apply Z.ltb_lt in N2; lia |].
  repeat (rewrite ?app_assoc; autorewrite with str).
  rewrite compare_digits4 by lia.
  rewrite compare_pad2 by lia.
  rewrite compare_pad2 by lia.
  cbn [String.compare]. change (Ascii.compare "-" "-") with Eq. cbn iota.
  rewrite compare_pad2 by lia.
  rewrite compare_pad2 by lia.
  rewrite compare_pad2 by lia.
  destruct (tm_year t1 ?= tm_year t2)%Z; [| reflexivity ..].
  destruct (tm_mon t1 ?= tm_mon t2)%Z; [| reflexivity ..].
  destruct (tm_mday t1 ?= tm_mday t2)%Z; [| reflexivity ..].
  destruct (tm_hour t1 ?= tm_hour t2)%Z; [| reflexivity ..].
  destruct (tm_min t1 ?= tm_min t2)%Z; [| reflexivity ..].
  reflexivity.
Qed.

Lemma strftime_ts_compare (t1 t2 : struct_time) :
  valid_tm t1 -> valid_tm t2 ->
  String.compare (strftime "%Y%m%d-%H%M%S" t1) (strftime "%Y%m%d-%H%M%S" t2)
  = tm_compare t1 t2.
Proof.
  intros H1 H2.
  rewrite <- (app_nil_r (strftime _ t1)), <- (app_nil_r (strftime _ t2)).
  rewrite strftime_ts_compare_app by assumption. apply lex_Eq_r.
Qed.

(** Local times with equal fields are equal. *)
Lemma tm_compare_eq (t1 t2 : struct_time) : tm_compare t1 t2 = Eq -> t1 = t2.
Proof.
  unfold tm_compare. intros H.
  repeat (apply lex_eq in H; destruct H as [?%Z.compare_eq H]).
  apply Z.compare_eq in H.
  destruct t1, t2; simpl in *; congruence.
Qed.

End OrderFacts.

(** ** Further properties of [main] *)

Module Extras.
Import Chars StringFacts CharsFacts Posixpath PathFacts Dict Json JsonFacts.
Import Os OsFacts FileFacts Time TimeFacts Re Run RunFacts MainFacts.
Import Sample Claims Extra OrderFacts.
Local Open Scope py_scope.

(** *** File names and time *)

Lemma same_script_out_dir (e1 e2 : env) :
  script_file e1 = script_file e2 -> out_dir e2 = out_dir e1.
Proof. intros Hf. unfold out_dir. rewrite Hf. reflexivity. Qed.

(** X1: for two runs of the script at valid local times, the paths of
    their files compare, as strings, the way the times do: listing the
    results by name lists them by time. *)
Theorem out_path_order (e1 e2 : env) :
  script_file e1 = script_file e2 ->
  valid_tm (localtime e1) -> valid_tm (localtime e2) ->
  String.compare (out_path e1) (out_path e2)
  = tm_compare (localtime e1) (localtime e2) /\
  String.compare (timestamp e1) (timestamp e2)
  = tm_compare (localtime e1) (localtime e2).
Proof.
  intros Hf H1 H2. split; [| apply strftime_ts_compare; assumption].
  rewrite !out_path_eq, (same_script_out_dir e1 e2 Hf).
  rewrite compare_app_head. unfold file_name.
  change (String.compare (String sep ?a) (String sep ?b))
    with (String.compare (String sep "" +:+ a) (String sep "" +:+ b)).
  rewrite !compare_app_head.
  unfold timestamp. rewrite strftime_ts_compare_app by assumption.
  rewrite compare_refl. apply lex_Eq_r.
Qed.

Lemma out_path_order_witness :
  script_file at_noon = script_file a_second_later /\
  valid_tm (localtime at_noon) /\ valid_tm (localtime a_second_later) /\
  String.compare (out_path at_noon) (out_path a_second_later) = Lt.
Proof.
  assert (valid_tm (localtime at_noon)) as H1 by (unfold valid_tm; simpl; lia).
  assert (valid_tm (localtime a_second_later)) as H2
    by (unfold valid_tm; simpl; lia).
  split; [reflexivity |]. split; [exact H1 |]. split; [exact H2 |].
  rewrite (proj1 (out_path_order at_noon a_second_later eq_refl H1 H2)).
  reflexivity.
Defined.

(** X2: two runs of the script at valid local times that differ, be it
    by one second, open different paths. *)
Theorem distinct_times_distinct_paths (e1 e2 : env) :
  script_file e1 = script_file e2 ->
  valid_tm (localtime e1) -> valid_tm (localtime e2) ->
  localtime e1 <> localtime e2 ->
  timestamp e1 <> timestamp e2 /\ out_path e1 <> out_path e2.
Proof.
  intros Hf H1 H2 Hne.
  assert (timestamp e1 <> timestamp e2) as Hts.
  { intros E. apply Hne, tm_compare_eq.
    rewrite <- (strftime_ts_compare _ _ H1 H2).
    unfold timestamp in E. rewrite E. apply compare_refl. }
  split; [exact Hts |].
  intros E. apply Hts. exact (out_path_inj e1 e2 Hf E).
Qed.

Lemma distinct_times_distinct_paths_witness :
  script_file at_noon = script_file a_second_later /\
  valid_tm (localtime at_noon) /\ valid_tm (localtime a_second_later) /\
  localtime at_noon <> localtime a_second_later /\
  out_path at_noon <> out_path a_second_later.
Proof.
  assert (valid_tm (localtime at_noon)) as H1 by (unfold valid_tm; simpl; lia).
  assert (valid_tm (localtime a_second_later)) as H2
    by (unfold valid_tm; simpl; lia).
  assert (localtime at_noon <> localtime a_second_later) as Hne
    by (simpl; discriminate).
  split; [reflexivity |]. split; [exact H1 |]. split; [exact H2 |].
  split; [exact Hne |].
  exact (proj2 (distinct_times_distinct_paths at_noon a_second_later
                  eq_refl H1 H2 Hne)).
Defined.

(** *** What is printed, and when *)

Lemma write_file_silent (e : env) (p : string) (obj : Json.value) (k : nat) :
  keeps silent (with_open_w e p (fun f => json_dump e obj f k)).
Proof.
  apply keeps_bind; [apply silent_trans | |].
  - intros w. unfold open_w.
    destruct (fault e (SysOpen p)); [reflexivity |].
    destruct (fs w !! p) as [[| d] |]; try reflexivity.
    destruct (parent_ok (fs w) p); reflexivity.
  - intros f w. unfold json_dump, write.
    destruct (fault e (SysWrite f)); [reflexivity |].
    destruct (fs w !! f) as [[| d] |]; reflexivity.
Qed.

(** X3: [main] prints its line last, and only when the file has been
    written: a run that raises leaves standard output as it was, a run
    that returns has added exactly its one line. *)
Theorem prints_only_when_written (e : env) (w : world) :
  match main e w with
  | Ret _ w' =>
      stdout w' = stdout w ++ [stdout_line (timestamp e)] /\
      fs w' !! out_path e = Some (File (file_text (timestamp e)))
  | Raise _ w' => stdout w' = stdout w
  end.
Proof.
  destruct (main e w) as [[] w' | x w'] eqn:H.
  - destruct (main_post e w w' H). auto.
  - rewrite main_steps in H.
    pose proof (makedirs_silent e (out_dir e) true w) as Hm.
    destruct (makedirs e (out_dir e) true w) as [[] w1 | y w1]; simpl in Hm.
    + pose proof (write_file_silent e (out_path e)
                    (JObj (result (timestamp e))) 2 w1) as Hw.
      destruct (with_open_w e (out_path e) _ w1) as [[] w2 | z w2];
        simpl in Hw; [discriminate |].
      injection H as _ <-. unfold silent in *. congruence.
    + injection H as _ <-. exact Hm.
Qed.

(** *** Failures *)

(** X4: when the results directory is not there and the system refuses
    to create it, [main] raises that [OSError] for the results directory
    and has changed nothing: no file, no output. *)
Theorem mkdir_refused (e : env) (w : world) (c : errno) :
  is_dir (fs w) (results_parent e) = true ->
  is_dir (fs w) (out_dir e) = false ->
  fault e (SysMkdir (out_dir e)) = Some c ->
  main e w = Raise (OSError c (out_dir e)) w /\
  run_script e w = (1%Z, w).
Proof.
  intros Hp Hd Hf.
  pose proof (mkdir_fault_propagates e w c Hp Hd Hf) as H.
  split; [exact H |]. unfold run_script. rewrite H. reflexivity.
Qed.

Lemma mkdir_refused_witness :
  is_dir (fs checkout) (results_parent at_noon_denied) = true /\
  is_dir (fs checkout) (out_dir at_noon_denied) = false /\
  fault at_noon_denied (SysMkdir (out_dir at_noon_denied)) = Some EACCES /\
  main at_noon_denied checkout
  = Raise (OSError EACCES (out_dir at_noon_denied)) checkout.
Proof.
  assert (is_dir (fs checkout) (results_parent at_noon_denied) = true) as Hp
    by (vm_compute; reflexivity).
  assert (is_dir (fs checkout) (out_dir at_noon_denied) = false) as Hd
    by (vm_compute; reflexivity).
  split; [exact Hp |]. split; [exact Hd |]. split; [reflexivity |].
  exact (proj1 (mkdir_refused at_noon_denied checkout EACCES Hp Hd eq_refl)).
Defined.

(** X5: [exist_ok=True] covers an existing directory only. When a
    regular file is in the place of the results directory, [main] raises
    [FileExistsError] (an [OSError] with [EEXIST]) for it and has changed
    nothing. *)
Theorem results_is_a_file (e : env) (w : world) :
  is_dir (fs w) (results_parent e) = true ->
  is_file (fs w) (out_dir e) = true ->
  fault e (SysMkdir (out_dir e)) = None ->
  main e w = Raise (OSError EEXIST (out_dir e)) w.
Proof.
  intros Hp Hfile Hf. rewrite main_steps, (makedirs_out_dir e w Hp).
  unfold mkdir_leaf, try_except, mkdir. rewrite Hf.
  unfold is_file in Hfile.
  destruct (fs w !! out_dir e) as [[| d] |] eqn:Hl; try discriminate.
  unfold bind, path_isdir, is_dir. rewrite Hl. reflexivity.
Qed.

Lemma results_is_a_file_witness :
  is_dir (fs results_taken) (results_parent at_noon) = true /\
  is_file (fs results_taken) (out_dir at_noon) = true /\
  fault at_noon (SysMkdir (out_dir at_noon)) = None /\
  main at_noon results_taken = Raise (OSError EEXIST (out_dir at_noon)) results_taken.
Proof.
  assert (is_dir (fs results_taken) (results_parent at_noon) = true) as Hp
    by (vm_compute; reflexivity).
  assert (is_file (fs results_taken) (out_dir at_noon) = true) as Hd
    by (vm_compute; reflexivity).
  split; [exact Hp |]. split; [exact Hd |]. split; [reflexivity |].
  exact (results_is_a_file at_noon results_taken Hp Hd eq_refl).
Defined.

(** X6: when the system refuses to open the file, [main] raises that
    [OSError] for the path of the file; a results directory made by this
    run stays, and nothing is printed. *)
Theorem open_refused (e : env) (w : world) (c : errno) :
  is_dir (fs w) (results_parent e) = true ->
  fs w !! out_dir e = None ->
  fault e (SysMkdir (out_dir e)) = None ->
  fault e (SysOpen (out_path e)) = Some c ->
  main e w
  = Raise (OSError c (out_path e))
      (mk_world (<[out_dir e := Dir]> (fs w)) (stdout w)).
Proof.
  intros Hp Hn Hm Ho.
  apply open_fault_propagates; [| exact Ho].
  rewrite (makedirs_out_dir e w Hp).
  apply mkdir_leaf_fresh; [exact Hn | exact Hm |].
  rewrite parent_ok_out_dir. exact Hp.
Qed.

Lemma open_refused_witness :
  is_dir (fs checkout) (results_parent at_noon_locked) = true /\
  fs checkout !! out_dir at_noon_locked = None /\
  fault at_noon_locked (SysMkdir (out_dir at_noon_locked)) = None /\
  fault at_noon_locked (SysOpen (out_path at_noon_locked)) = Some EACCES /\
  main at_noon_locked checkout
  = Raise (OSError EACCES (out_path at_noon_locked))
      (mk_world (<[out_dir at_noon_locked := Dir]> (fs checkout)) (stdout checkout)).
Proof.
  assert (is_dir (fs checkout) (results_parent at_noon_locked) = true) as Hp
    by (vm_compute; reflexivity).
  assert (fs checkout !! out_dir at_noon_locked = None) as Hn
    by (vm_compute; reflexivity).
  split; [exact Hp |]. split; [exact Hn |]. split; [reflexivity |].
  split; [reflexivity |].
  exact (open_refused at_noon_locked checkout EACCES Hp Hn eq_refl eq_refl).
Defined.



(** *** What a run leaves in place *)

(** Opening and writing a path keeps what was there in kind: a
    directory stays untouched, a regular file stays a regular file. *)
Lemma write_file_kind (e : env) (p : string) (obj : Json.value) (k : nat)
    (w : world) :
  (is_dir (fs w) p = true ->
   final (with_open_w e p (fun f => json_dump e obj f k) w) = w) /\
  (is_file (fs w) p = true ->
   is_file (fs (final (with_open_w e p (fun f => json_dump e obj f k) w))) p
   = true).
Proof.
  unfold with_open_w, bind, open_w, json_dump, write, is_dir, is_file.
  destruct (fault e (SysOpen p)); [split; intros H; [reflexivity | exact H] |].
  destruct (fs w !! p) as [[| d] |] eqn:Hl; (split; [intros H | intros H]);
    try discriminate; try reflexivity.
  simpl. destruct (fault e (SysWrite p)); simpl.
  - rewrite lookup_insert_eq. reflexivity.
  - rewrite lookup_insert_eq. simpl. rewrite lookup_insert_eq. reflexivity.
Qed.

(** X8: [main] removes nothing and changes the kind of nothing:
    whatever its outcome, every directory is still a directory and every
    regular file still a regular file afterwards. *)
Theorem main_keeps_kinds (e : env) (w : world) (p : string) :
  (is_dir (fs w) p = true -> is_dir (fs (final (main e w))) p = true) /\
  (is_file (fs w) p = true -> is_file (fs (final (main e w))) p = true).
Proof.
  destruct (decide (p = out_path e)) as [-> | Hne].
  - rewrite main_steps.
    pose proof (makedirs_touches e (out_dir e) (out_dir e) true w (out_path e)
                  (out_path_neq_out_dir e e eq_refl)) as Ht.
    destruct (makedirs e (out_dir e) true w) as [[] w1 | x w1]; simpl in Ht.
    + assert (is_dir (fs w) (out_path e) = true -> is_dir (fs w1) (out_path e) = true)
        as Hd by (unfold is_dir; destruct Ht as [-> | [-> _]]; [auto | discriminate]).
      assert (is_file (fs w) (out_path e) = true -> is_file (fs w1) (out_path e) = true)
        as Hf by (unfold is_file; destruct Ht as [-> | [-> _]]; [auto | discriminate]).
      destruct (write_file_kind e (out_path e) (JObj (result (timestamp e))) 2 w1)
        as [Kd Kf].
      destruct (with_open_w e (out_path e) _ w1) as [[] w2 | x w2]; simpl in *.
      * split; intros H; [rewrite (Kd (Hd H)); exact (Hd H) | exact (Kf (Hf H))].
      * split; intros H; [rewrite (Kd (Hd H)); exact (Hd H) | exact (Kf (Hf H))].
    + simpl. unfold is_dir, is_file.
      destruct Ht as [-> | [-> _]]; split; auto; discriminate.
  - pose proof (main_touches e w p Hne) as Ht. unfold is_dir, is_file.
    destruct Ht as [-> | [-> _]]; split; auto; discriminate.
Qed.

Lemma main_keeps_kinds_witness :
  is_dir (fs path_taken) (out_path a_second_later) = true /\
  is_dir (fs (final (main a_second_later path_taken))) (out_path a_second_later)
  = true.
Proof.
  assert (is_dir (fs path_taken) (out_path a_second_later) = true) as H
    by (vm_compute; reflexivity).
  split; [exact H |].
  exact (proj1 (main_keeps_kinds a_second_later path_taken _) H).
Defined.

(** X9: when a directory is in the place of the file, [main] does not
    complete; with the results directory there and [open] not refused it
    raises [IsADirectoryError] (an [OSError] with [EISDIR]) for the path
    of the file, and has changed nothing. *)
Theorem path_is_a_directory (e : env) (w : world) :
  is_dir (fs w) (out_path e) = true ->
  (forall w', main e w <> Ret tt w') /\
  (is_dir (fs w) (results_parent e) = true ->
   is_dir (fs w) (out_dir e) = true ->
   fault e (SysOpen (out_path e)) = None ->
   main e w = Raise (OSError EISDIR (out_path e)) w).
Proof.
  intros Hd. split.
  - intros w' H. apply main_ret_inv in H.
    destruct H as (w1 & Hm & _ & _ & Hn & _). apply Hn.
    pose proof (makedirs_touches e (out_dir e) (out_dir e) true w (out_path e)
                  (out_path_neq_out_dir e e eq_refl)) as Ht.
    rewrite Hm in Ht. simpl in Ht. apply is_dir_lookup in Hd.
    destruct Ht as [E | [N _]]; congruence.
  - intros Hp Hr Ho. rewrite main_steps, (makedirs_out_dir e w Hp),
      (mkdir_leaf_existing e _ w Hr).
    unfold with_open_w, bind, open_w. rewrite Ho.
    apply is_dir_lookup in Hd. rewrite Hd. reflexivity.
Qed.

Lemma path_is_a_directory_witness :
  is_dir (fs path_taken) (out_path a_second_later) = true /\
  main a_second_later path_taken
  = Raise (OSError EISDIR (out_path a_second_later)) path_taken.
Proof.
  assert (is_dir (fs path_taken) (out_path a_second_later) = true) as H
    by (vm_compute; reflexivity).
  split; [exact H |].
  apply (proj2 (path_is_a_directory a_second_later path_taken H));
    vm_compute; reflexivity.
Defined.

(** X10: after every completed run the results directory exists, the
    file written is a regular file, and [os.path.dirname] of its path is
    the results directory: the file lies directly in it. *)
Theorem completed_run_layout (e : env) (w w' : world) :
  main e w = Ret tt w' ->
  is_dir (fs w') (out_dir e) = true /\
  is_file (fs w') (out_path e) = true /\
  dirname (out_path e) = out_dir e.
Proof.
  intros H. split; [| split].
  - apply main_ret_inv in H. destruct H as (w1 & Hm & _ & _ & _ & ->). simpl.
    apply makedirs_out_dir_post in Hm. apply is_dir_lookup.
    rewrite lookup_insert_ne by exact (out_path_neq_out_dir e e eq_refl).
    apply is_dir_lookup, Hm.
  - destruct (main_post e w w' H) as [Hf _]. unfold is_file. rewrite Hf.
    reflexivity.
  - unfold dirname. rewrite split_out_path. reflexivity.
Qed.

Lemma completed_run_layout_witness :
  main at_noon checkout = Ret tt after_first /\
  is_dir (fs after_first) (out_dir at_noon) = true /\
  is_file (fs after_first) (out_path at_noon) = true /\
  dirname (out_path at_noon) = out_dir at_noon.
Proof.
  split; [exact first_run |].
  exact (completed_run_layout at_noon checkout after_first first_run).
Defined.



(** *** The characters of the output *)

Lemma escape_char_printable (c : ascii) :
  forall_chars is_printable (escape_char c) = true.
Proof. destruct c as [[] [] [] [] [] [] [] []]; reflexivity. Qed.

(** An encoded string is plain ASCII, whatever the string. *)
Lemma escape_printable (s : string) : forall_chars is_printable (escape s) = true.
Proof.
  induction s as [| c s IH]; [reflexivity |].
  simpl escape. rewrite forall_chars_app, escape_char_printable, IH. reflexivity.
Qed.

(** X12: whatever string the timestamp is, the compact dump that [main]
    prints holds only characters from space to tilde, so that with the
    newline of [print] it is exactly one line; the text written to the
    file holds such characters and newlines only. *)
Theorem output_is_ascii (ts : string) :
  forall_chars is_printable (dumps (JObj (result ts))) = true /\
  stdout_line ts = dumps (JObj (result ts)) +:+ String newline "" /\
  forall_chars printable_or_newline (file_text ts) = true.
Proof.
  split; [| split; [reflexivity |]].
  - rewrite result_items. unfold dumps. cbn [encode map join fst snd].
    unfold encode_string. change (repr_int 0) with "0".
    change (escape "timestamp") with "timestamp".
    change (escape "instances") with "instances".
    change (escape "resolved") with "resolved".
    change (escape "score") with "score".
    repeat (rewrite ?app_assoc; autorewrite with str).
    repeat (rewrite ?forall_chars_app; cbn [forall_chars]).
    rewrite escape_printable. reflexivity.
  - unfold file_text. rewrite result_items. unfold dump_text.
    cbn [encode map join fst snd spaces Nat.mul Nat.add].
    unfold encode_string. change (repr_int 0) with "0".
    change (escape "timestamp") with "timestamp".
    change (escape "instances") with "instances".
    change (escape "resolved") with "resolved".
    change (escape "score") with "score".
    repeat (rewrite ?app_assoc; autorewrite with str).
    repeat (rewrite ?forall_chars_app; cbn [forall_chars]).
    rewrite (forall_chars_impl is_printable printable_or_newline (escape ts)).
    + reflexivity.
    + intros c Hc. unfold printable_or_newline. rewrite Hc. reflexivity.
    + apply escape_printable.
Qed.

(** *** Where the results go *)

Lemma all_sep_endswith (s : string) :
  is_empty s = false -> all_sep s = true -> endswith_sep s = true.
Proof.
  induction s as [| c s IH]; [discriminate |].
  intros _ [Hc Hs]%andb_true_iff. simpl.
  destruct s as [| d s]; [exact Hc |]. apply IH; [reflexivity | exact Hs].
Qed.

Lemma ends_plain_cons (c : ascii) (s : string) :
  ends_plain s -> ends_plain (String c s).
Proof.
  intros (h & d & -> & Hd). exists (String c h), d. split; [reflexivity | exact Hd].
Qed.

(** Stripping trailing separators leaves nothing, or a path that ends
    with another character. *)
Lemma rstrip_sep_cases (s : string) :
  (rstrip_sep s = "" /\ all_sep s = true)
  \/ (ends_plain (rstrip_sep s) /\ all_sep s = false).
Proof.
  induction s as [| c s IH]; [left; split; reflexivity |].
  simpl. destruct IH as [[E A] | [P A]].
  - rewrite E, A. simpl. destruct (Ascii.eqb c sep) eqn:Hc.
    + left. split; reflexivity.
    + right. split; [| reflexivity]. exists "", c. split; [reflexivity | exact Hc].
  - rewrite A, (ends_plain_not_empty _ P), andb_false_r. simpl.
    right. split; [apply ends_plain_cons, P | reflexivity].
Qed.

(** [os.path.dirname] gives the empty path, a run of separators, or a
    path that does not end with a separator. *)
Lemma dirname_cases (p : string) :
  is_empty (dirname p) = true
  \/ (is_empty (dirname p) = false /\ all_sep (dirname p) = true)
  \/ ends_plain (dirname p).
Proof.
  unfold dirname, split. destruct (cut_last_sep p) as [h t]. simpl.
  destruct (is_empty h) eqn:He; [left; exact He |].
  destruct (all_sep h) eqn:Ha; simpl.
  - right. left. split; assumption.
  - right. right. destruct (rstrip_sep_cases h) as [[_ A] | [P _]];
      [congruence | exact P].
Qed.

(** X13: the results directory is [../../results] taken from the
    directory of the script: for a script given by its bare name it is
    the relative path [../../results], for a script directly under the
    root it is [/../../results], and otherwise the directory of the
    script followed by [/../../results]. *)
Theorem out_dir_shape (e : env) :
  out_dir e
  = (if is_empty (dirname (script_file e)) then ""
     else if all_sep (dirname (script_file e)) then dirname (script_file e)
     else dirname (script_file e) +:+ "/")
    +:+ "../../results".
Proof.
  unfold out_dir, Posixpath.join. cbn [fold_left].
  destruct (dirname_cases (script_file e)) as [He | [[He Ha] | P]].
  - rewrite He. destruct (dirname (script_file e)); [reflexivity | discriminate].
  - rewrite He, Ha.
    assert (join_step (dirname (script_file e)) ".."
            = dirname (script_file e) +:+ "..") as ->.
    { unfold join_step. rewrite (all_sep_endswith _ He Ha), orb_true_r.
      reflexivity. }
    rewrite (join_step_plain (dirname (script_file e) +:+ "..") "..");
      [| apply (ends_plain_app _ "." "."); reflexivity | reflexivity].
    rewrite (join_step_plain _ "results");
      [| rewrite !app_assoc; apply (ends_plain_app _ "../." "."); reflexivity
       | reflexivity].
    rewrite !app_assoc. reflexivity.
  - rewrite (ends_plain_not_empty _ P), (ends_plain_not_all_sep _ P).
    rewrite (join_step_plain _ ".." P eq_refl).
    rewrite (join_step_plain _ "..");
      [| apply (ends_plain_app _ "/." "."); reflexivity | reflexivity].
    rewrite (join_step_plain _ "results");
      [| rewrite !app_assoc; apply (ends_plain_app _ "/../." "."); reflexivity
       | reflexivity].
    rewrite !app_assoc. reflexivity.
Qed.

End Extras.

(** ** The model on the sample run *)

Module Examples.
Import Os Run Sample.

Example timestamp_at_noon : timestamp at_noon = "20261103-120000".
Proof. reflexivity. Qed.

Example repr_int_samples :
  Chars.repr_int 0 = "0" /\ Chars.repr_int (-42) = "-42"
  /\ Chars.repr_int 10000 = "10000" /\ Chars.pad2 7 = "07" /\ Chars.pad2 61 = "61".
Proof. repeat split; reflexivity. Qed.

Example out_path_at_noon :
  out_path at_noon
  = "/repo/harness/adapters/swebench/../../results/swebench-20261103-120000.json".
Proof. reflexivity. Qed.

Example stdout_at_noon :
  stdout after_first
  = ["{" +:+ quoted "timestamp" +:+ ": " +:+ quoted "20261103-120000" +:+ ", "
     +:+ quoted "instances" +:+ ": 0, " +:+ quoted "resolved" +:+ ": 0, "
     +:+ quoted "score" +:+ ": 0}" +:+ eol].
Proof. vm_compute. reflexivity. Qed.

Example file_at_noon :
  fs after_first !! out_path at_noon
  = Some (File
      ("{" +:+ eol
       +:+ "  " +:+ quoted "timestamp" +:+ ": " +:+ quoted "20261103-120000" +:+ "," +:+ eol
       +:+ "  " +:+ quoted "instances" +:+ ": 0," +:+ eol
       +:+ "  " +:+ quoted "resolved" +:+ ": 0," +:+ eol
       +:+ "  " +:+ quoted "score" +:+ ": 0" +:+ eol
       +:+ "}")).
Proof. vm_compute. reflexivity. Qed.

Example escapes :
  Json.escape ("a" +:+ String Json.dquote "b" +:+ eol +:+ String Json.backslash "")
  = "a" +:+ String Json.backslash (String Json.dquote "b")
    +:+ String Json.backslash "n" +:+ String Json.backslash (String Json.backslash "").
Proof. reflexivity. Qed.

End Examples.
